(** * The run/action timeline of the coding-assistant UI

    A shallow embedding of the client-side state machine:
    - [useWebSocket.handleWSMessage]  (the event reducer),
    - [useChat.sendPrompt], [useChat.cancelCurrentTask]  (the control channel),
    - [App.timelineActions], [App.pendingExecRequest],
      [App.handleRejectExecution], [App.handleAcceptExecution].

    JavaScript objects are records of optional fields, decoded JSON payloads
    are a small inductive type, React state is one record, and an [async]
    handler is a finite tree of effects that an interpreter runs against the
    state and an environment (network replies, clock, code runner). *)

From Stdlib Require Import ZArith Lia Ascii String.
From stdpp Require Import gmap strings list fin_maps pretty.

Local Open Scope string_scope.
Local Open Scope Z_scope.

(** ** Decoded JSON payloads *)

(** What [JSON.parse] yields.  [option json] is a JavaScript value that may
    also be [undefined] ([None]). *)
#[warnings="-register-all"]
Inductive json : Type :=
  | JNull
  | JBool (b : bool)
  | JNum (n : Z)
  | JStr (s : string)
  | JArr (items : list json)
  | JObj (fields : list (string * json)).

(** The value of key [k] in an object literal; on a repeated key
    [JSON.parse] keeps the last occurrence. *)
Fixpoint assoc_last (k : string) (fields : list (string * json)) : option json :=
  match fields with
  | [] => None
  | (k', v) :: rest =>
      match assoc_last k rest with
      | Some w => Some w
      | None => if String.eqb k k' then Some v else None
      end
  end.

(** [v.k] for a value [v] that is neither [null] nor [undefined]: only
    objects carry the keys read by this program. *)
Definition prop (k : string) (v : json) : option json :=
  match v with
  | JObj fields => assoc_last k fields
  | _ => None
  end.

(** [v?.k]: [undefined] when [v] is nullish. *)
Definition opt_prop (k : string) (v : option json) : option json :=
  match v with
  | Some w => prop k w
  | None => None
  end.

(** [v?.[0]]. *)
Definition opt_first (v : option json) : option json :=
  match v with
  | Some (JArr items) => head items
  | Some (JStr (String c _)) => Some (JStr (String c EmptyString))
  | Some (JObj fields) => assoc_last "0" fields
  | _ => None
  end.

(** JavaScript truthiness, as tested by [!v], [v || d] and [a && b]. *)
Definition truthy (v : option json) : bool :=
  match v with
  | None | Some JNull => false
  | Some (JBool b) => b
  | Some (JNum n) => negb (n =? 0)
  | Some (JStr s) => negb (String.eqb s "")
  | Some (JArr _) | Some (JObj _) => true
  end.

(** [v ?? d]. *)
Definition nullish_or (v : option json) (d : json) : json :=
  match v with
  | None | Some JNull => d
  | Some w => w
  end.

(** An object literal handed to [JSON.stringify]: keys whose value is
    [undefined] are left out. *)
Fixpoint obj_fields (kvs : list (string * option json)) : list (string * json) :=
  match kvs with
  | [] => []
  | (k, Some v) :: rest => (k, v) :: obj_fields rest
  | (_, None) :: rest => obj_fields rest
  end.

Definition opt_str (s : option string) : option json := JStr <$> s.

(** ** Actions, runs and the run registry *)

Inductive Kind : Type :=
  | user_message | tool_started | exec_request | tool_completed | tool_failed
  | exec_result | assistant_thought | final_answer | system_notice.

Inductive Status : Type := running | done | failed.

#[global] Instance Kind_eq_dec : EqDecision Kind.
Proof. solve_decision. Defined.
#[global] Instance Status_eq_dec : EqDecision Status.
Proof. solve_decision. Defined.

(** An action is a plain JavaScript object.  The source builds actions
    with object literals and spreads ([{...prev, status: 'failed'}]), so
    every property other than [status] (which each literal sets) may be
    absent. *)
Record Action : Type := mkAction {
  id : option string;
  kind : option Kind;
  status : Status;
  timestamp : option string;
  toolName : option string;
  arguments : option json;
  responseOnReject : option json;
  result : option json;
  error : option string;
  content : option json;
  message : option json;
  output : option string;
}.

(** [{ status: st }], the object a spread of [undefined] leaves. *)
Definition bare (st : Status) : Action :=
  mkAction None None st None None None None None None None None None.

Definition with_status (st : Status) (a : Action) : Action :=
  mkAction (id a) (kind a) st (timestamp a) (toolName a) (arguments a)
    (responseOnReject a) (result a) (error a) (content a) (message a) (output a).

Record Run : Type := mkRun {
  taskId : string;
  prompt : string;
  actions : list Action;
}.

Record Registry : Type := mkRegistry {
  runs : gmap string Run;
  runOrder : list string;
}.

Definition with_actions (r : Run) (l : list Action) : Run :=
  mkRun (taskId r) (prompt r) l.

(** Modelled from the spec: [createRun] of the run context
    ([context/RunContext], which is not among the sources).  It inserts a
    run with no actions when the task identifier is absent and appends the
    identifier to [runOrder]; on a known identifier it changes nothing. *)
Definition createRun (tid : string) (p : string) (reg : Registry) : Registry :=
  match runs reg !! tid with
  | Some _ => reg
  | None => mkRegistry (<[tid := mkRun tid p []]> (runs reg)) (runOrder reg ++ [tid])
  end.

(** Modelled from the spec: [addAction] of the run context.  It appends the
    action to the run of [tid]; an unknown [tid] changes nothing. *)
Definition addAction (tid : string) (a : Action) (reg : Registry) : Registry :=
  match runs reg !! tid with
  | Some r => mkRegistry (<[tid := with_actions r (actions r ++ [a])]> (runs reg)) (runOrder reg)
  | None => reg
  end.

(** Position of the first action whose [id] is [aid] ([===], so an absent
    [id] only equals an absent [aid]). *)
Fixpoint find_index (aid : option string) (l : list Action) : option nat :=
  match l with
  | [] => None
  | a :: rest =>
      if decide (id a = aid) then Some 0%nat else S <$> find_index aid rest
  end.

(** Insert-if-absent-else-replace, keyed by identifier. *)
Definition upsert (aid : option string) (updater : option Action -> Action)
    (l : list Action) : list Action :=
  match find_index aid l with
  | Some i => <[i := updater (l !! i)]> l
  | None => l ++ [updater None]
  end.

(** Modelled from the spec: [updateAction] of the run context.  It looks up
    the action with identifier [aid] in the run of [tid], applies the
    updater to it ([undefined] when absent) and upserts the outcome.  The
    spec is silent on an unknown [tid]; as for [addAction], nothing changes. *)
Definition updateAction (tid : string) (aid : option string)
    (updater : option Action -> Action) (reg : Registry) : Registry :=
  match runs reg !! tid with
  | Some r => mkRegistry (<[tid := with_actions r (upsert aid updater (actions r))]> (runs reg)) (runOrder reg)
  | None => reg
  end.

(** The actions of a run, [[]] for an unknown run ([runs[id]?.actions || []]). *)
Definition actions_of (reg : Registry) (tid : string) : list Action :=
  match runs reg !! tid with
  | Some r => actions r
  | None => []
  end.

(** ** Server events and tool-call descriptors *)

Module Ev.
(** [AgentEvent], after [JSON.parse]. *)
Record t : Type := mk {
  event_type : string;
  task_id : string;
  timestamp : string;
  data : option json;
  error : option string;
}.
End Ev.

Module ToolCall.
(** A tool-call descriptor [{ id, function: { name, arguments } }] read at
    its declared type. *)
Record t : Type := mk {
  id : string;
  name : string;
  arguments : option json;
}.
End ToolCall.

(** Reads a truthy descriptor.  [None] stands for a descriptor that is not
    of the declared shape (no [function] object, which makes
    [toolCall.function.name] raise a [TypeError], or an [id] or [name] that
    is not a string).  The reducer below leaves by an exception on every
    such descriptor; the source does so only when [function] is missing
    and otherwise carries on with the ill-typed values, so the reducer
    follows the source on descriptors of the declared shape
    ([declared_shape] below). *)
Definition read_tool_call (v : json) : option ToolCall.t :=
  match prop "id" v, prop "function" v with
  | Some (JStr i), Some f =>
      match prop "name" f with
      | Some (JStr n) => Some (ToolCall.mk i n (prop "arguments" f))
      | _ => None
      end
  | _, _ => None
  end.

(** ** Session state (the React state of [App] and the run context) *)

Inductive ExecutionAction : Type := accept | reject.

Record Session : Type := mkSession {
  code : string;
  proposedCode : option json;
  input : string;
  loading : bool;
  currentTaskId : option string;
  cancelling : bool;
  executingCode : bool;
  executionAction : option ExecutionAction;
  registry : Registry;
}.

Definition setProposedCode (v : option json) (s : Session) : Session :=
  mkSession (code s) v (input s) (loading s) (currentTaskId s) (cancelling s)
    (executingCode s) (executionAction s) (registry s).
Definition setInput (v : string) (s : Session) : Session :=
  mkSession (code s) (proposedCode s) v (loading s) (currentTaskId s) (cancelling s)
    (executingCode s) (executionAction s) (registry s).
Definition setLoading (v : bool) (s : Session) : Session :=
  mkSession (code s) (proposedCode s) (input s) v (currentTaskId s) (cancelling s)
    (executingCode s) (executionAction s) (registry s).
Definition setCurrentTaskId (v : option string) (s : Session) : Session :=
  mkSession (code s) (proposedCode s) (input s) (loading s) v (cancelling s)
    (executingCode s) (executionAction s) (registry s).
Definition setCancelling (v : bool) (s : Session) : Session :=
  mkSession (code s) (proposedCode s) (input s) (loading s) (currentTaskId s) v
    (executingCode s) (executionAction s) (registry s).
Definition setExecutingCode (v : bool) (s : Session) : Session :=
  mkSession (code s) (proposedCode s) (input s) (loading s) (currentTaskId s)
    (cancelling s) v (executionAction s) (registry s).
Definition setExecutionAction (v : option ExecutionAction) (s : Session) : Session :=
  mkSession (code s) (proposedCode s) (input s) (loading s) (currentTaskId s)
    (cancelling s) (executingCode s) v (registry s).
(** The run context's setters are functional updates of the registry. *)
Definition setRuns (f : Registry -> Registry) (s : Session) : Session :=
  mkSession (code s) (proposedCode s) (input s) (loading s) (currentTaskId s)
    (cancelling s) (executingCode s) (executionAction s) (f (registry s)).

(** ** Handlers as effect trees *)

(** A [fetch] call: [endpoint] is the path below [API_BASE]; every call of
    the program is a JSON [POST]. *)
Record Request : Type := mkRequest {
  endpoint : string;
  body : json;
}.

(** How an awaited [fetch] settles: a response with its [ok] flag and its
    parsed body ([None] when [res.json()] would reject), or a rejection. *)
Inductive FetchResult : Type :=
  | Response (ok : bool) (payload : option json)
  | NetworkError.

(** The body of a handler.  [Throw] is an exception that leaves the
    handler; [Await] suspends on a [fetch]. *)
Inductive Prog : Type :=
  | Return
  | Throw
  | Update (f : Session -> Session) (k : Prog)
  | Await (r : Request) (k : FetchResult -> Prog)
  | DateNow (k : Z -> Prog)
  | ToISOString (k : string -> Prog)
  | RunCode (src : string) (k : string -> Prog)
  | Console (msg : string) (k : Prog).

(** [p; q] *)
Fixpoint seq (p q : Prog) : Prog :=
  match p with
  | Return => q
  | Throw => Throw
  | Update f k => Update f (seq k q)
  | Await r k => Await r (fun x => seq (k x) q)
  | DateNow k => DateNow (fun x => seq (k x) q)
  | ToISOString k => ToISOString (fun x => seq (k x) q)
  | RunCode c k => RunCode c (fun x => seq (k x) q)
  | Console m k => Console m (seq k q)
  end.

Declare Scope prog_scope.
Delimit Scope prog_scope with prog.
Bind Scope prog_scope with Prog.
Notation "p ;; q" := (seq p q) (at level 100, q at level 200, right associativity) : prog_scope.

Definition call (f : Session -> Session) : Prog := Update f Return.
Definition log (msg : string) : Prog := Console msg Return.

(** What surrounds one activation of a handler: the reply to a request,
    the clock ([Date.now()] and [new Date().toISOString()], each read at
    most once per activation) and the code runner [runCurrentCode]. *)
Record Env : Type := mkEnv {
  reply : Request -> FetchResult;
  now : Z;
  iso : string;
  runCurrentCode : string -> string;
}.

(** The state a handler leaves, whether it left by an exception, the
    requests it issued (each with the state at that moment) and the
    console lines.  One activation runs to its end: what other handlers
    would do to the session while it is suspended in an [Await] is not
    interleaved. *)
Record Outcome : Type := mkOutcome {
  final : Session;
  threw : bool;
  sent : list (Request * Session);
  logged : list string;
}.

Fixpoint run (env : Env) (p : Prog) (s : Session) : Outcome :=
  match p with
  | Return => mkOutcome s false [] []
  | Throw => mkOutcome s true [] []
  | Update f k => run env k (f s)
  | Await r k =>
      let o := run env (k (reply env r)) s in
      mkOutcome (final o) (threw o) ((r, s) :: sent o) (logged o)
  | DateNow k => run env (k (now env)) s
  | ToISOString k => run env (k (iso env)) s
  | RunCode c k => run env (k (runCurrentCode env c)) s
  | Console m k =>
      let o := run env k s in
      mkOutcome (final o) (threw o) (sent o) (m :: logged o)
  end.

(** ** [useWebSocket]: the event reducer *)

Definition EXEC_TOOL : string := "request_code_execution".

(** The action of a started event (lines 34-45 of the hook). *)
Definition startAction (event : Ev.t) (tc : ToolCall.t) : Action :=
  if String.eqb (ToolCall.name tc) EXEC_TOOL then
    {| id := Some (ToolCall.id tc); kind := Some exec_request; status := running;
       timestamp := Some (Ev.timestamp event); toolName := None; arguments := None;
       responseOnReject := opt_prop "response_on_reject" (ToolCall.arguments tc);
       result := None; error := None; content := None; message := None;
       output := None |}
  else
    {| id := Some (ToolCall.id tc); kind := Some tool_started; status := running;
       timestamp := Some (Ev.timestamp event); toolName := Some (ToolCall.name tc);
       arguments := ToolCall.arguments tc; responseOnReject := None;
       result := None; error := None; content := None; message := None;
       output := None |}.

(** The updater of a completed event:
    [prev => ({...(prev ?? fresh), kind: 'tool_completed', status: 'done',
    result: resp.output_data})]. *)
Definition completedUpdater (event : Ev.t) (tc : ToolCall.t)
    (output_data : option json) (prev : option Action) : Action :=
  let base :=
    default
      {| id := Some (ToolCall.id tc); kind := Some tool_completed; status := done;
         timestamp := Some (Ev.timestamp event); toolName := Some (ToolCall.name tc);
         arguments := None; responseOnReject := None; result := None; error := None;
         content := None; message := None; output := None |}
      prev in
  {| id := id base; kind := Some tool_completed; status := done;
     timestamp := timestamp base; toolName := toolName base;
     arguments := arguments base; responseOnReject := responseOnReject base;
     result := output_data; error := error base; content := content base;
     message := message base; output := output base |}.

(** The updater of a failed event:
    [prev => ({...(prev ?? fresh), kind: 'tool_failed', status: 'failed',
    error: event.error})]. *)
Definition failedUpdater (event : Ev.t) (tc : ToolCall.t)
    (prev : option Action) : Action :=
  let base :=
    default
      {| id := Some (ToolCall.id tc); kind := Some tool_failed; status := failed;
         timestamp := Some (Ev.timestamp event); toolName := Some (ToolCall.name tc);
         arguments := None; responseOnReject := None; result := None; error := None;
         content := None; message := None; output := None |}
      prev in
  {| id := id base; kind := Some tool_failed; status := failed;
     timestamp := timestamp base; toolName := toolName base;
     arguments := arguments base; responseOnReject := responseOnReject base;
     result := result base; error := Ev.error event; content := content base;
     message := message base; output := output base |}.

(** A synthesized action [{ id, kind, status: 'done', content | message,
    timestamp }]. *)
Definition thoughtAction (event : Ev.t) (t : Z) (text : string) : Action :=
  {| id := Some ("thought_" +:+ pretty t); kind := Some assistant_thought;
     status := done; timestamp := Some (Ev.timestamp event); toolName := None;
     arguments := None; responseOnReject := None; result := None; error := None;
     content := Some (JStr text); message := None; output := None |}.

Definition answerAction (event : Ev.t) (t : Z) : Action :=
  {| id := Some ("answer_" +:+ pretty t); kind := Some final_answer;
     status := done; timestamp := Some (Ev.timestamp event); toolName := None;
     arguments := None; responseOnReject := None; result := None; error := None;
     content := Ev.data event; message := None; output := None |}.

Definition noticeAction (prefix : string) (t : Z) (msg : json) (ts : string) : Action :=
  {| id := Some (prefix +:+ pretty t); kind := Some system_notice;
     status := done; timestamp := Some ts; toolName := None;
     arguments := None; responseOnReject := None; result := None; error := None;
     content := None; message := Some msg; output := None |}.

Definition handleWSMessage (event : Ev.t) : Prog :=
  let tid := Ev.task_id event in
  (log "WS event:" ;;
  if String.eqb (Ev.event_type event) "progress_update_tool_action_started" then
    let toolCall := opt_first (opt_prop "args" (Ev.data event)) in
    if negb (truthy toolCall) then Return else
    match toolCall ≫= read_tool_call with
    | None => Throw
    | Some tc => call (setRuns (addAction tid (startAction event tc)))
    end
  else if String.eqb (Ev.event_type event) "progress_update_tool_action_completed" then
    let resp := opt_prop "result" (Ev.data event) in
    let toolCall := opt_prop "tool_call" resp in
    if negb (truthy toolCall) then Return else
    match toolCall ≫= read_tool_call with
    | None => Throw
    | Some tc =>
        let output_data := opt_prop "output_data" resp in
        let new_code := opt_prop "new_code" output_data in
        (if String.eqb (ToolCall.name tc) "edit_code" && truthy new_code
         then call (setProposedCode new_code) else Return) ;;
        if String.eqb (ToolCall.name tc) EXEC_TOOL then Return
        else
          call (setRuns (updateAction tid (Some (ToolCall.id tc))
                           (completedUpdater event tc output_data))) ;;
          match output_data with
          | Some (JStr text) =>
              if String.eqb (ToolCall.name tc) "think" then
                DateNow (fun t => call (setRuns (addAction tid (thoughtAction event t text))))
              else Return
          | _ => Return
          end
    end
  else if String.eqb (Ev.event_type event) "progress_update_tool_action_failed" then
    let toolCall := opt_first (opt_prop "args" (Ev.data event)) in
    if negb (truthy toolCall) then Return else
    match toolCall ≫= read_tool_call with
    | None => Throw
    | Some tc =>
        call (setRuns (updateAction tid (Some (ToolCall.id tc)) (failedUpdater event tc)))
    end
  else if String.eqb (Ev.event_type event) "agent_output" then
    DateNow (fun t =>
      call (setRuns (addAction tid (answerAction event t))) ;;
      call (setLoading false) ;;
      call (setCurrentTaskId None))
  else if String.eqb (Ev.event_type event) "run_cancelled" then
    DateNow (fun t =>
      call (setRuns (addAction tid
        (noticeAction "cancel_" t (JStr "Task was cancelled.") (Ev.timestamp event)))) ;;
      call (setLoading false) ;;
      call (setCancelling false) ;;
      call (setCurrentTaskId None))
  else if String.eqb (Ev.event_type event) "run_failed" then
    DateNow (fun t =>
      call (setRuns (addAction tid
        (noticeAction "fail_" t (JStr "Failed to get agent response.") (Ev.timestamp event)))) ;;
      call (setLoading false) ;;
      call (setCancelling false) ;;
      call (setCurrentTaskId None))
  else log "Unhandled event:")%prog.

(** ** [useChat]: the control channel *)

(** White space as [String.prototype.trim] sees it, among the code units
    below 256 that the strings of this model hold: TAB, LF, VT, FF, CR,
    space and the no-break space. *)
Definition is_white (c : ascii) : bool :=
  let n := N.to_nat (N_of_ascii c) in
  ((9 <=? n) && (n <=? 13) || (n =? 32) || (n =? 160))%nat.

Fixpoint trimStart (s : string) : string :=
  match s with
  | String c rest => if is_white c then trimStart rest else s
  | EmptyString => EmptyString
  end.

Definition trim (s : string) : string :=
  String.rev (trimStart (String.rev (trimStart s))).

(** [!input.trim()] *)
Definition blank (s : string) : bool := String.eqb (trim s) "".

(** [!currentTaskId], for [currentTaskId : string | null]. *)
Definition no_task (t : option string) : bool :=
  match t with
  | Some s => String.eqb s ""
  | None => true
  end.

(** The final answers of all runs, in run order then action order, as
    assistant messages. *)
Definition message_history (reg : Registry) : list json :=
  flat_map
    (fun tid =>
       match runs reg !! tid with
       | None => []
       | Some r =>
           map (fun final => JObj (obj_fields [("role", Some (JStr "assistant"));
                                               ("content", content final)]))
               (filter (fun a => kind a = Some final_answer) (actions r))
       end)
    (runOrder reg).

Definition enqueueRequest (userId : string) (s : Session) : Request :=
  mkRequest "/enqueue"
    (JObj (obj_fields
       [("user_id", Some (JStr userId));
        ("query", Some (JStr (input s)));
        ("code", Some (nullish_or (proposedCode s) (JStr (code s))));
        ("message_history", Some (JArr (message_history (registry s))))])).

Definition userAction (t : Z) (text : string) (ts : string) : Action :=
  {| id := Some ("user_" +:+ pretty t); kind := Some user_message;
     status := done; timestamp := Some ts; toolName := None;
     arguments := None; responseOnReject := None; result := None; error := None;
     content := Some (JStr text); message := None; output := None |}.

(** [sendPrompt], created in the render of state [s] (whose [input],
    [code] and runs it closes over).  The [fetch] is awaited outside any
    [try]: a rejection leaves the handler as an exception.  An ok reply is
    followed for a body that names the task by a string ([declared_reply]
    below); on a body without one the source goes on with an [undefined]
    task identifier, which the [Throw] here does not follow. *)
Definition sendPrompt (userId : string) (s : Session) : Prog :=
  (if blank (input s) then Return else
   call (setLoading true) ;;
   call (setInput "") ;;
   Await (enqueueRequest userId s) (fun res =>
     match res with
     | NetworkError => Throw
     | Response true payload =>
         match payload ≫= prop "task_id" with
         | Some (JStr task_id) =>
             call (setRuns (createRun task_id (input s))) ;;
             call (setCurrentTaskId (Some task_id)) ;;
             DateNow (fun t => ToISOString (fun ts =>
               call (setRuns (addAction task_id (userAction t (input s) ts)))))
         | _ => Throw
         end
     | Response false _ =>
         log "enqueue failed" ;;
         call (setLoading false)
     end))%prog.

Definition cancelRequest (userId : string) (s : Session) : Request :=
  mkRequest "/cancel"
    (JObj (obj_fields [("user_id", Some (JStr userId));
                       ("task_id", opt_str (currentTaskId s))])).

Definition cancelCurrentTask (userId : string) (s : Session) : Prog :=
  (if no_task (currentTaskId s) || cancelling s then Return else
   call (setCancelling true) ;;
   Await (cancelRequest userId s) (fun res =>
     match res with
     | Response ok _ => if negb ok then call (setCancelling false) else Return
     | NetworkError =>
         log "Error cancelling task:" ;;
         call (setCancelling false)
     end))%prog.

(** ** [App]: the timeline and the pending execution request *)

Definition timelineActions (reg : Registry) : list Action :=
  flat_map (actions_of reg) (runOrder reg).

(** A value that may be [null] or [undefined]. *)
Inductive Nullable (A : Type) : Type :=
  | Null
  | Undefined
  | Defined (a : A).
Arguments Null {A}.
Arguments Undefined {A}.
Arguments Defined {A} a.

Definition is_pending (a : Action) : bool :=
  bool_decide (kind a = Some exec_request) && bool_decide (status a = running).

Definition pendingExecRequest (reg : Registry) : Nullable Action :=
  match timelineActions reg with
  | [] => Null
  | tl =>
      match find is_pending (rev tl) with
      | Some a => Defined a
      | None => Undefined
      end
  end.

Definition completeToolRequest (userId : string) (tid : string)
    (aid : option string) (res : json) : Request :=
  mkRequest "/complete_tool"
    (JObj (obj_fields [("user_id", Some (JStr userId));
                       ("task_id", Some (JStr tid));
                       ("tool_call_id", opt_str aid);
                       ("result", Some res)])).

(** [prev => ({...(prev as Action), status: st})] *)
Definition statusUpdater (st : Status) (prev : option Action) : Action :=
  match prev with
  | Some a => with_status st a
  | None => bare st
  end.

Definition resultAction (t : Z) (out : string) (ts : string) : Action :=
  {| id := Some ("exec_result_" +:+ pretty t); kind := Some exec_result;
     status := done; timestamp := Some ts; toolName := None;
     arguments := None; responseOnReject := None; result := None; error := None;
     content := None; message := None; output := Some out |}.

(** [await fetch(...)] inside [try { } catch { console.error(...) }]: the
    response is not looked at. *)
Definition tryFetch (r : Request) (msg : string) : Prog :=
  Await r (fun res =>
    match res with
    | Response _ _ => Return
    | NetworkError => log msg
    end).

Definition handleRejectExecution (userId : string) (s : Session) : Prog :=
  match pendingExecRequest (registry s), currentTaskId s with
  | Defined pending, Some tid =>
      (if String.eqb tid "" then Return else
       call (setExecutingCode true) ;;
       call (setExecutionAction (Some reject)) ;;
       let rejectMsg := nullish_or (responseOnReject pending) (JStr "Execution rejected.") in
       tryFetch (completeToolRequest userId tid (id pending) rejectMsg)
                "Failed to send reject for execution request" ;;
       call (setRuns (updateAction tid (id pending) (statusUpdater failed))) ;;
       DateNow (fun t => ToISOString (fun ts =>
         let notice := noticeAction "reject_" t rejectMsg ts in
         call (setRuns (updateAction tid (id notice) (fun _ => notice))) ;;
         call (setExecutingCode false) ;;
         call (setExecutionAction None))))%prog
  | _, _ => Return
  end.

Definition handleAcceptExecution (userId : string) (s : Session) : Prog :=
  match pendingExecRequest (registry s), currentTaskId s with
  | Defined pending, Some tid =>
      (if String.eqb tid "" then Return else
       call (setExecutingCode true) ;;
       call (setExecutionAction (Some accept)) ;;
       RunCode (code s) (fun out =>
         tryFetch (completeToolRequest userId tid (id pending)
                     (JStr (if String.eqb out "" then "Code executed successfully (no output)."
                            else out)))
                  "Failed to complete execution request" ;;
         DateNow (fun t => ToISOString (fun ts =>
           let res := resultAction t out ts in
           call (setRuns (updateAction tid (id res) (fun _ => res))) ;;
           call (setRuns (updateAction tid (id pending) (statusUpdater done))) ;;
           call (setExecutingCode false) ;;
           call (setExecutionAction None)))))%prog
  | _, _ => Return
  end.

(** [handleSendMessage] and [handleCancelTask], the guards [App] puts in
    front of the two hooks. *)
Definition handleSendMessage (userId : string) (s : Session) : Prog :=
  if blank (input s) || loading s then Return else sendPrompt userId s.

Definition handleCancelTask (userId : string) (s : Session) : Prog :=
  if negb (no_task (currentTaskId s)) && negb (cancelling s)
  then cancelCurrentTask userId s else Return.

(** ** Sessions over time *)

(** What can happen to a session: the user types in the prompt box (which
    is disabled while loading), a server event arrives, or one of the four
    buttons is pressed (the two execution buttons are disabled while
    [executingCode]). *)
Inductive Activity : Type :=
  | Typed (text : string)
  | Message (event : Ev.t)
  | SendMessage
  | CancelTask
  | RejectExecution
  | AcceptExecution.

Definition handler (userId : string) (act : Activity) (s : Session) : Prog :=
  match act with
  | Typed text => if loading s then Return else call (setInput text)
  | Message event => handleWSMessage event
  | SendMessage => handleSendMessage userId s
  | CancelTask => handleCancelTask userId s
  | RejectExecution =>
      if executingCode s then Return else handleRejectExecution userId s
  | AcceptExecution =>
      if executingCode s then Return else handleAcceptExecution userId s
  end.

Definition step (env : Env) (userId : string) (act : Activity) (s : Session) : Session :=
  final (run env (handler userId act s) s).

(** The state of a fresh [App] around editor text [code0]. *)
Definition initial (code0 : string) : Session :=
  mkSession code0 None "" false None false false None (mkRegistry ∅ []).

(** Sessions reached from a fresh one by activities handled one after the
    other, each in some environment. *)
Inductive reachable (userId : string) : Session -> Prop :=
  | reach_initial code0 : reachable userId (initial code0)
  | reach_step env act s :
      reachable userId s -> reachable userId (step env userId act s).

(** The identifiers of the actions of a run. *)
Definition ids_of (reg : Registry) (tid : string) : list (option string) :=
  id <$> actions_of reg tid.

(** ** Concrete events and sessions *)

Module Scenario.

Definition env (r : FetchResult) (t : Z) : Env :=
  mkEnv (fun _ => r) t "2025-06-01T12:00:00.000Z" (fun _ => "42").

Definition enqueued (tid : string) : FetchResult :=
  Response true (Some (JObj [("task_id", JStr tid)])).

Definition descriptor (i n : string) (args : json) : json :=
  JObj [("id", JStr i); ("function", JObj [("name", JStr n); ("arguments", args)])].

Definition started (tid i n : string) (args : json) : Ev.t :=
  Ev.mk "progress_update_tool_action_started" tid "2025-06-01T12:00:01.000Z"
    (Some (JObj [("args", JArr [descriptor i n args])])) None.

Definition completed (tid i n : string) (out : json) : Ev.t :=
  Ev.mk "progress_update_tool_action_completed" tid "2025-06-01T12:00:02.000Z"
    (Some (JObj [("result", JObj [("tool_call", descriptor i n (JObj []));
                                  ("output_data", out)])])) None.

Definition plain (ty tid : string) (payload : option json) : Ev.t :=
  Ev.mk ty tid "2025-06-01T12:00:03.000Z" payload None.

(** A fresh session after the prompt "sort this array" was typed ... *)
Definition typed : Session :=
  step (env NetworkError 998) "u" (Typed "sort this array") (initial "code").

(** ... and after it was sent and acknowledged with task [t1]. *)
Definition prompted : Session :=
  step (env (enqueued "t1") 999) "u" SendMessage typed.

(** ... and after a [think] tool call [c1] was announced. *)
Definition thinking : Session :=
  step (env NetworkError 1000) "u"
    (Message (started "t1" "c1" "think" (JObj []))) prompted.

(** ... or after two [think] completions were handled within millisecond
    1000. *)
Definition thought_twice : Session :=
  step (env NetworkError 1000) "u" (Message (completed "t1" "c2" "think" (JStr "then")))
    (step (env NetworkError 1000) "u" (Message (completed "t1" "c1" "think" (JStr "first")))
       prompted).

(** ... or after an execution request [c1] was announced. *)
Definition asked : Session :=
  step (env NetworkError 1000) "u"
    (Message (started "t1" "c1" EXEC_TOOL (JObj [("response_on_reject", JStr "no")])))
    prompted.

(** ... which is still pending when run [t1] is cancelled and a second
    prompt is acknowledged with task [t2]. *)
Definition asked_then_prompted : Session :=
  step (env (enqueued "t2") 2001) "u" SendMessage
    (step (env NetworkError 2000) "u" (Typed "again")
       (step (env NetworkError 1500) "u" (Message (plain "run_cancelled" "t1" None))
          asked)).

(** Two runs holding execution requests in the states done, running,
    running. *)
Definition request (i : string) (st : Status) : Action :=
  with_status st (startAction (started "" i EXEC_TOOL (JObj [])) (ToolCall.mk i EXEC_TOOL None)).

Definition three_requests : Registry :=
  mkRegistry
    (<["t2" := mkRun "t2" "second" [request "c2" running; request "c3" running]]>
       (<["t1" := mkRun "t1" "first" [request "c1" done]]> ∅))
    ["t1"; "t2"].

End Scenario.


(** ** Notions used to state the properties *)

(** The descriptor a completed event carries, [event.data?.result?.tool_call]. *)
Definition completed_tool_call (event : Ev.t) : option json :=
  opt_prop "tool_call" (opt_prop "result" (Ev.data event)).

(** [resp.output_data] of a completed event. *)
Definition completed_output (event : Ev.t) : option json :=
  opt_prop "output_data" (opt_prop "result" (Ev.data event)).

(** The thought a completed event adds besides its upsert: one
    [assistant_thought] when the tool is [think] and its output a string. *)
Definition thoughts_of (event : Ev.t) (tc : ToolCall.t) (t : Z) : list Action :=
  match completed_output event with
  | Some (JStr text) =>
      if String.eqb (ToolCall.name tc) "think" then [thoughtAction event t text] else []
  | _ => []
  end.

(** The specification's pending execution request, in its own words: the
    last action, in the flattened order of all runs (runs in creation
    order, each run's actions in their order), whose kind is
    [exec_request] and whose status is running; none when there is no such
    action. *)
Definition running_exec_request (a : Action) : Prop :=
  kind a = Some exec_request /\ status a = running.

#[global] Instance running_exec_request_dec a : Decision (running_exec_request a).
Proof. unfold running_exec_request. apply _. Defined.

Definition flattened (reg : Registry) : list Action :=
  concat (map (fun tid => actions_of reg tid) (runOrder reg)).

Fixpoint last_such (P : Action -> Prop) `{forall a, Decision (P a)}
    (l : list Action) : option Action :=
  match l with
  | [] => None
  | a :: rest =>
      match last_such P rest with
      | Some b => Some b
      | None => if decide (P a) then Some a else None
      end
  end.

Definition latest_running_exec_request (reg : Registry) : option Action :=
  last_such running_exec_request (flattened reg).

(** A failed enqueue: a response that is not ok, or a rejected [fetch]. *)
Definition enqueue_failed (res : FetchResult) : Prop :=
  res = NetworkError \/ exists payload, res = Response false payload.

(** ** Further parts of [App] and notions for the properties below *)

(** The placeholder test of the timeline,
    [!runs[runOrder[0]] || runs[runOrder[0]].actions.length === 0].
    Indexing an empty [runOrder] gives [undefined], which as a key of
    [runs] reads as the string "undefined". *)
Definition timelinePlaceholder (reg : Registry) : bool :=
  match runs reg !! default "undefined" (head (runOrder reg)) with
  | None => true
  | Some r => bool_decide (length (actions r) = 0%nat)
  end.

(** Whether the "Thinking..." line is rendered: in the branch without the
    placeholder, [loading || timelineActions.some(a => a.status === 'running')]. *)
Definition thinkingShown (s : Session) : bool :=
  negb (timelinePlaceholder (registry s)) &&
  (loading s ||
   existsb (fun a => bool_decide (status a = running)) (timelineActions (registry s))).

(** Whether the cancel button is rendered, [loading && currentTaskId]. *)
Definition cancelShown (s : Session) : bool :=
  loading s && negb (no_task (currentTaskId s)).

(** The descriptor a started or failed event carries, [event.data?.args?.[0]]. *)
Definition announced_tool_call (event : Ev.t) : option json :=
  opt_first (opt_prop "args" (Ev.data event)).

(** The three event types that end a run. *)
Definition terminal (event : Ev.t) : Prop :=
  Ev.event_type event = "agent_output" \/
  Ev.event_type event = "run_cancelled" \/
  Ev.event_type event = "run_failed".

(** Every state update of a handler body is a [T]-step. *)
Fixpoint every_update (T : Session -> Session -> Prop) (p : Prog) : Prop :=
  match p with
  | Return | Throw => True
  | Update f k => (forall s, T s (f s)) /\ every_update T k
  | Await _ k => forall x, every_update T (k x)
  | DateNow k => forall x, every_update T (k x)
  | ToISOString k => forall x, every_update T (k x)
  | RunCode _ k => forall x, every_update T (k x)
  | Console _ k => every_update T k
  end.

(** A handler body that awaits nothing. *)
Fixpoint silent (p : Prog) : Prop :=
  match p with
  | Return | Throw => True
  | Update _ k => silent k
  | Await _ _ => False
  | DateNow k => forall x, silent (k x)
  | ToISOString k => forall x, silent (k x)
  | RunCode _ k => forall x, silent (k x)
  | Console _ k => silent k
  end.

(** Registry [reg'] differs from [reg] at most in the run of [tid], which
    kept its task identifier and prompt and whose identifiers, in order,
    start with those it had. *)
Definition run_grows (tid : string) (reg reg' : Registry) : Prop :=
  runOrder reg' = runOrder reg /\
  (forall t, t <> tid -> runs reg' !! t = runs reg !! t) /\
  match runs reg !! tid with
  | None => runs reg' !! tid = None
  | Some r =>
      exists r', runs reg' !! tid = Some r' /\ taskId r' = taskId r /\
        prompt r' = prompt r /\ (id <$> actions r) `prefix_of` (id <$> actions r')
  end.

(** What the event reducer leaves alone. *)
Definition reducer_frame (tid : string) (s s' : Session) : Prop :=
  input s' = input s /\ code s' = code s /\
  executingCode s' = executingCode s /\ executionAction s' = executionAction s /\
  run_grows tid (registry s) (registry s').

(** A registry whose [runOrder] lists every run once and no other
    identifier, each run filed under its own task identifier. *)
Definition wf_registry (reg : Registry) : Prop :=
  NoDup (runOrder reg) /\
  (forall t, t ∈ runOrder reg <-> is_Some (runs reg !! t)) /\
  (forall t r, runs reg !! t = Some r -> taskId r = t).

(** A session over a well-formed registry in which no run is empty and
    whose active task, if any, is a known run shown as loading. *)
Definition consistent (s : Session) : Prop :=
  wf_registry (registry s) /\
  (forall t r, runs (registry s) !! t = Some r -> actions r <> []) /\
  (forall t, currentTaskId s = Some t ->
     is_Some (runs (registry s) !! t) /\ loading s = true).

(** What the cancel and the execution handlers leave alone. *)
Definition keeps_task (tid : string) (s s' : Session) : Prop :=
  loading s' = loading s /\ currentTaskId s' = currentTaskId s /\
  run_grows tid (registry s) (registry s').

(** The message of the history for a final answer. *)
Definition history_message (final : Action) : json :=
  JObj (obj_fields [("role", Some (JStr "assistant")); ("content", content final)]).

(** ** The inputs on which the model follows the source *)

(** An event whose descriptor, when it carries a truthy one, has the
    declared shape (a string [id], a [function] with a string [name]).  On
    other truthy descriptors the source goes on with ill-typed values or
    raises only where it reads them, which [handleWSMessage] above does not
    follow; the properties below that range over events are stated for
    events of this shape. *)
Definition declared_shape (event : Ev.t) : Prop :=
  ((Ev.event_type event = "progress_update_tool_action_started" \/
    Ev.event_type event = "progress_update_tool_action_failed") ->
   truthy (announced_tool_call event) = true ->
   is_Some (announced_tool_call event ≫= read_tool_call)) /\
  (Ev.event_type event = "progress_update_tool_action_completed" ->
   truthy (completed_tool_call event) = true ->
   is_Some (completed_tool_call event ≫= read_tool_call)).

(** The event types whose action is filed by [updateAction]. *)
Definition upserting (event : Ev.t) : Prop :=
  Ev.event_type event = "progress_update_tool_action_completed" \/
  Ev.event_type event = "progress_update_tool_action_failed".

(** An event of the declared shape that stays within what the specification
    says of the store: its run is known, or it is filed by [addAction]
    (whose behaviour on an unknown task the specification gives; that of
    [updateAction] it leaves open). *)
Definition within_contract (event : Ev.t) (s : Session) : Prop :=
  declared_shape event /\
  (is_Some (runs (registry s) !! Ev.task_id event) \/ ~ upserting event).

(** A reply to the enqueue whose body, when the response is ok and parses,
    names the task by a string. *)
Definition declared_reply (res : FetchResult) : Prop :=
  match res with
  | Response true (Some payload) => exists tid, prop "task_id" payload = Some (JStr tid)
  | _ => True
  end.

Definition declared_step (env : Env) (userId : string) (act : Activity)
    (s : Session) : Prop :=
  match act with
  | Message event => within_contract event s
  | SendMessage => declared_reply (reply env (enqueueRequest userId s))
  | _ => True
  end.

(** Sessions reached from a fresh one by activities on such inputs, each
    handled to its end before the next. *)
Inductive reachable_declared (userId : string) : Session -> Prop :=
  | declared_initial code0 : reachable_declared userId (initial code0)
  | declared_next env act s :
      reachable_declared userId s -> declared_step env userId act s ->
      reachable_declared userId (step env userId act s).

(** * Properties *)

Local Open Scope list_scope.

(** ** The store *)

Section Store.
Implicit Types (reg : Registry) (l : list Action) (a : Action).

Lemma actions_of_addAction reg tid a r :
  runs reg !! tid = Some r ->
  actions_of (addAction tid a reg) tid = actions r ++ [a].
Proof.
  intros Hr. unfold actions_of, addAction. rewrite Hr. simpl.
  by rewrite lookup_insert_eq.
Qed.

Lemma actions_of_addAction_unknown reg tid a :
  runs reg !! tid = None -> addAction tid a reg = reg.
Proof. intros Hr. unfold addAction. by rewrite Hr. Qed.

Lemma actions_of_addAction_other reg tid tid' a :
  tid <> tid' ->
  actions_of (addAction tid a reg) tid' = actions_of reg tid'.
Proof.
  intros Hne. unfold actions_of, addAction.
  destruct (runs reg !! tid); [|done]. simpl. by rewrite lookup_insert_ne.
Qed.

Lemma runOrder_addAction reg tid a :
  runOrder (addAction tid a reg) = runOrder reg.
Proof. unfold addAction. by destruct (runs reg !! tid). Qed.

Lemma actions_of_updateAction reg tid aid f r :
  runs reg !! tid = Some r ->
  actions_of (updateAction tid aid f reg) tid = upsert aid f (actions r).
Proof.
  intros Hr. unfold actions_of, updateAction. rewrite Hr. simpl.
  by rewrite lookup_insert_eq.
Qed.

Lemma actions_of_updateAction_other reg tid tid' aid f :
  tid <> tid' ->
  actions_of (updateAction tid aid f reg) tid' = actions_of reg tid'.
Proof.
  intros Hne. unfold actions_of, updateAction.
  destruct (runs reg !! tid); [|done]. simpl. by rewrite lookup_insert_ne.
Qed.

Lemma runOrder_updateAction reg tid aid f :
  runOrder (updateAction tid aid f reg) = runOrder reg.
Proof. unfold updateAction. by destruct (runs reg !! tid). Qed.

(** [find_index] returns the first position holding the identifier. *)
Lemma find_index_Some aid l i :
  find_index aid l = Some i ->
  exists a, l !! i = Some a /\ id a = aid /\
    forall j b, (j < i)%nat -> l !! j = Some b -> id b <> aid.
Proof.
  revert i. induction l as [|x l IH]; intros i; simpl; [done|].
  case_decide as Hx.
  - intros [= <-]. exists x. split_and!; [done|done|]. intros j b Hj. lia.
  - destruct (find_index aid l) as [k|] eqn:Hk; simpl; [|done].
    intros [= <-]. destruct (IH k eq_refl) as (a & Ha & Hid & Hfirst).
    exists a. split_and!; [done|done|].
    intros [|j] b Hj; simpl.
    + by intros [= <-].
    + apply Hfirst. lia.
Qed.

Lemma find_index_None aid l :
  find_index aid l = None <-> Forall (fun a => id a <> aid) l.
Proof.
  induction l as [|x l IH]; simpl; [by split; [constructor|]|].
  case_decide as Hx.
  - split; [done|]. intros Hall. by inversion Hall.
  - destruct (find_index aid l) eqn:Hk; simpl.
    + split; [done|]. intros Hall. inversion Hall; subst.
      by apply IH in H2.
    + split; [|done]. intros _. constructor; [done|]. by apply IH.
Qed.

Lemma find_index_lt aid l i :
  find_index aid l = Some i -> (i < length l)%nat.
Proof.
  intros H. destruct (find_index_Some _ _ _ H) as (a & Ha & _).
  by apply lookup_lt_Some in Ha.
Qed.

(** The upsert of the store: absent identifiers append [f undefined],
    present ones are replaced in place. *)
Lemma upsert_absent aid f l :
  Forall (fun a => id a <> aid) l -> upsert aid f l = l ++ [f None].
Proof. intros H. unfold upsert. apply find_index_None in H. by rewrite H. Qed.

Lemma upsert_present aid f l i :
  find_index aid l = Some i ->
  upsert aid f l = <[i := f (l !! i)]> l /\
  length (upsert aid f l) = length l.
Proof.
  intros H. unfold upsert. rewrite H. split; [done|]. by rewrite length_insert.
Qed.
(** An upsert whose outcome carries the identifier it was keyed by keeps
    the identifiers of a run pairwise distinct ... *)
Lemma upsert_NoDup aid f l :
  (forall prev, id (f prev) = aid) ->
  NoDup (id <$> l) -> NoDup (id <$> upsert aid f l).
Proof.
  intros Hf Hnd. unfold upsert.
  destruct (find_index aid l) as [i|] eqn:Hi.
  - destruct (find_index_Some _ _ _ Hi) as (a & Ha & Hid & _).
    rewrite list_fmap_insert, Hf.
    rewrite list_insert_id; [done|]. by rewrite list_lookup_fmap, Ha, <- Hid.
  - apply find_index_None in Hi. rewrite fmap_app. cbn. rewrite Hf.
    apply NoDup_app. split_and!; [done| |apply NoDup_singleton].
    intros x Hx ->%list_elem_of_singleton.
    apply list_elem_of_fmap in Hx as (a & Ha & Hin).
    rewrite Forall_forall in Hi. by destruct (Hi a Hin).
Qed.

(** ... while an append keeps them distinct only for an unused identifier. *)
Lemma append_NoDup l a :
  NoDup (id <$> (l ++ [a])) <-> NoDup (id <$> l) /\ id a ∉ id <$> l.
Proof.
  rewrite fmap_app. cbn. rewrite NoDup_app. split.
  - intros (Hnd & Hdis & _). split; [done|].
    intros Hin. apply (Hdis _ Hin). by apply list_elem_of_singleton.
  - intros [Hnd Hnin]. split_and!; [done| |apply NoDup_singleton].
    by intros x Hx ->%list_elem_of_singleton.
Qed.
End Store.

(** ** The event reducer *)

Lemma read_tool_call_truthy v tc :
  read_tool_call v = Some tc -> truthy (Some v) = true.
Proof. destruct v; simpl; try done. Qed.

(** C4.  A completed event whose descriptor names the execution-request
    tool changes nothing: the session it leaves is the session it found
    (so no action is added to or changed in any run), it raises no
    exception and issues no request. *)
Theorem completed_exec_request_is_suppressed env event tcj tc s :
  Ev.event_type event = "progress_update_tool_action_completed" ->
  completed_tool_call event = Some tcj ->
  read_tool_call tcj = Some tc ->
  ToolCall.name tc = EXEC_TOOL ->
  let o := run env (handleWSMessage event) s in
  final o = s /\ threw o = false /\ sent o = [] /\
  timelineActions (registry (final o)) = timelineActions (registry s).
Proof.
  intros Htype Hdesc Hread Hname. unfold completed_tool_call in Hdesc.
  unfold handleWSMessage. rewrite Htype. cbn.
  rewrite Hdesc, (read_tool_call_truthy _ _ Hread). cbn.
  rewrite Hread, Hname. cbn. done.
Qed.

(** C5.  An [agent_output] event, in any session: the registry it leaves
    is the one it found after one [addAction] of a [final_answer] action
    whose identifier is [answer_] followed by the clock reading, whose
    status is done and whose content is the payload [event.data]; the run
    of the event, when the registry knows it, gains exactly that action at
    its end and every other run keeps its actions; [loading] is false and
    [currentTaskId] is null afterwards, whatever they were. *)
Theorem agent_output_inserts_final_answer env event s :
  Ev.event_type event = "agent_output" ->
  let o := run env (handleWSMessage event) s in
  let a := answerAction event (now env) in
  (id a = Some ("answer_" +:+ pretty (now env)) /\ kind a = Some final_answer /\
   status a = done /\ content a = Ev.data event) /\
  registry (final o) = addAction (Ev.task_id event) a (registry s) /\
  (forall r, runs (registry s) !! Ev.task_id event = Some r ->
     actions_of (registry (final o)) (Ev.task_id event) = actions r ++ [a]) /\
  (forall tid, tid <> Ev.task_id event ->
     actions_of (registry (final o)) tid = actions_of (registry s) tid) /\
  loading (final o) = false /\ currentTaskId (final o) = None /\ threw o = false.
Proof.
  intros Htype. unfold handleWSMessage. rewrite Htype. cbn.
  split_and!; try done.
  - intros r Hr. by apply actions_of_addAction.
  - intros tid Hne. by apply actions_of_addAction_other.
Qed.

(** C6.  A [run_failed] event for task [t2]: the registry it leaves is the
    one it found after one [addAction] on [t2] of a [system_notice] action
    with status done and message "Failed to get agent response."; a known
    run [t2] gains exactly that action at its end; [loading] and
    [cancelling] are false and [currentTaskId] is null afterwards. *)
Theorem run_failed_inserts_notice env event s :
  Ev.event_type event = "run_failed" ->
  let o := run env (handleWSMessage event) s in
  let t2 := Ev.task_id event in
  let a := noticeAction "fail_" (now env) (JStr "Failed to get agent response.")
             (Ev.timestamp event) in
  (kind a = Some system_notice /\ status a = done /\
   message a = Some (JStr "Failed to get agent response.")) /\
  registry (final o) = addAction t2 a (registry s) /\
  (forall r, runs (registry s) !! t2 = Some r ->
     actions_of (registry (final o)) t2 = actions r ++ [a]) /\
  loading (final o) = false /\ cancelling (final o) = false /\
  currentTaskId (final o) = None /\ threw o = false.
Proof.
  intros Htype. unfold handleWSMessage. rewrite Htype. cbn.
  split_and!; try done.
  intros r Hr. by apply actions_of_addAction.
Qed.

Lemma completed_registry env event tcj tc s :
  Ev.event_type event = "progress_update_tool_action_completed" ->
  completed_tool_call event = Some tcj ->
  read_tool_call tcj = Some tc ->
  ToolCall.name tc <> EXEC_TOOL ->
  let o := run env (handleWSMessage event) s in
  let upd := updateAction (Ev.task_id event) (Some (ToolCall.id tc))
               (completedUpdater event tc (completed_output event)) (registry s) in
  threw o = false /\
  registry (final o) =
    foldl (fun reg a => addAction (Ev.task_id event) a reg) upd
          (thoughts_of event tc (now env)).
Proof.
  intros Htype Hdesc Hread Hname. unfold completed_tool_call in Hdesc.
  unfold handleWSMessage, thoughts_of, completed_output. rewrite Htype. cbn.
  rewrite Hdesc, (read_tool_call_truthy _ _ Hread). cbn. rewrite Hread.
  apply String.eqb_neq in Hname. rewrite Hname.
  destruct (String.eqb (ToolCall.name tc) "edit_code" && _); cbn;
    destruct (opt_prop "output_data" _) as [[]|]; cbn; try done;
    destruct (String.eqb (ToolCall.name tc) "think"); cbn; done.
Qed.

Lemma exists_find_index aid (l : list Action) a :
  a ∈ l -> id a = aid -> exists i, find_index aid l = Some i.
Proof.
  intros Hin Hid. destruct (find_index aid l) as [i|] eqn:Hf; [by exists i|].
  apply find_index_None in Hf. rewrite Forall_forall in Hf.
  by destruct (Hf a Hin).
Qed.

(** C1, as amended.  A completed event with a descriptor for a tool other
    than the execution-request tool, for a run the registry knows: when no
    action of the run has the tool-call identifier, the run gains at its
    end one [tool_completed] action with that identifier, status done, the
    tool name and the output; when one has it, the first such action is
    replaced in place by the merged record (its own fields, with kind
    [tool_completed], status done and the output).  After that record the
    run gains one [assistant_thought] action exactly when the tool is
    [think] and the output a string, so the length grows by that thought
    and is unchanged otherwise.  No started event is assumed. *)
Theorem completed_upserts_tool_completed env event tcj tc s r :
  Ev.event_type event = "progress_update_tool_action_completed" ->
  completed_tool_call event = Some tcj ->
  read_tool_call tcj = Some tc ->
  ToolCall.name tc <> EXEC_TOOL ->
  runs (registry s) !! Ev.task_id event = Some r ->
  let o := run env (handleWSMessage event) s in
  let out := completed_output event in
  let after := actions_of (registry (final o)) (Ev.task_id event) in
  let thoughts := thoughts_of event tc (now env) in
  threw o = false /\
  (ToolCall.name tc <> "think" \/ (forall text, out <> Some (JStr text)) -> thoughts = []) /\
  (forall text, ToolCall.name tc = "think" -> out = Some (JStr text) ->
     thoughts = [thoughtAction event (now env) text]) /\
  (Forall (fun a => id a <> Some (ToolCall.id tc)) (actions r) ->
   exists c,
     after = actions r ++ [c] ++ thoughts /\
     id c = Some (ToolCall.id tc) /\ kind c = Some tool_completed /\
     status c = done /\ toolName c = Some (ToolCall.name tc) /\ result c = out) /\
  ((exists a, a ∈ actions r /\ id a = Some (ToolCall.id tc)) ->
   exists i a c,
     find_index (Some (ToolCall.id tc)) (actions r) = Some i /\
     actions r !! i = Some a /\
     after = <[i := c]> (actions r) ++ thoughts /\
     length after = (length (actions r) + length thoughts)%nat /\
     c = completedUpdater event tc out (Some a) /\
     id c = Some (ToolCall.id tc) /\ kind c = Some tool_completed /\
     status c = done /\ result c = out /\
     toolName c = toolName a /\ arguments c = arguments a /\ timestamp c = timestamp a).
Proof.
  intros Htype Hdesc Hread Hname Hr o out after thoughts.
  destruct (completed_registry env event tcj tc s Htype Hdesc Hread Hname)
    as [Hthrew Hreg].
  assert (Hafter : after = upsert (Some (ToolCall.id tc))
            (completedUpdater event tc out) (actions r) ++ thoughts).
  { subst after o. rewrite Hreg. fold thoughts. fold out.
    assert (Hu := actions_of_updateAction (registry s) (Ev.task_id event)
              (Some (ToolCall.id tc)) (completedUpdater event tc out) r Hr).
    assert (Hk : is_Some (runs (updateAction (Ev.task_id event) (Some (ToolCall.id tc))
              (completedUpdater event tc out) (registry s)) !! Ev.task_id event)).
    { unfold updateAction. rewrite Hr. cbn. rewrite lookup_insert_eq. by eexists. }
    destruct Hk as [r' Hr'].
    destruct thoughts as [|t [|t' rest]] eqn:Hth; cbn.
    - by rewrite app_nil_r.
    - rewrite (actions_of_addAction _ _ _ _ Hr').
      unfold actions_of in Hu. rewrite Hr' in Hu. by rewrite Hu.
    - exfalso. unfold thoughts, thoughts_of in Hth.
      destruct (completed_output event) as [[]|]; try done.
      by destruct (String.eqb _ _). }
  split_and!.
  - done.
  - intros [Hn | Hn]; unfold thoughts, thoughts_of; fold out.
    + apply String.eqb_neq in Hn. rewrite Hn. by destruct out as [[]|].
    + destruct out as [[| | |text| |]|] eqn:Ho; try done. by destruct (Hn text).
  - intros text Hn Ho. unfold thoughts, thoughts_of. fold out. by rewrite Ho, Hn.
  - intros Habs. eexists. split.
    + rewrite Hafter, (upsert_absent _ _ _ Habs). by rewrite <- app_assoc.
    + done.
  - intros (a0 & Hin & Hid).
    destruct (exists_find_index _ _ _ Hin Hid) as [i Hi].
    destruct (find_index_Some _ _ _ Hi) as (a & Ha & Hida & _).
    destruct (upsert_present (Some (ToolCall.id tc))
                (completedUpdater event tc out) _ _ Hi) as [Hup Hlen].
    exists i, a, (completedUpdater event tc out (Some a)).
    split_and!; try done.
    + by rewrite Hafter, Hup, Ha.
    + by rewrite Hafter, length_app, Hlen.
Qed.

(** ** The pending execution request *)

Lemma timelineActions_flattened reg : timelineActions reg = flattened reg.
Proof.
  unfold timelineActions, flattened.
  induction (runOrder reg) as [|tid l IH]; simpl; [done|]. by rewrite IH.
Qed.

Lemma is_pending_running a : is_pending a = true <-> running_exec_request a.
Proof.
  unfold is_pending, running_exec_request.
  rewrite andb_true_iff, !bool_decide_eq_true. done.
Qed.

Lemma find_snoc (P : Action -> bool) l a :
  find P (l ++ [a]) =
  match find P l with Some b => Some b | None => if P a then Some a else None end.
Proof.
  induction l as [|x l IH]; simpl; [done|]. by destruct (P x).
Qed.

Lemma find_rev_last_such l :
  find is_pending (rev l) = last_such running_exec_request l.
Proof.
  induction l as [|a l IH]; simpl; [done|].
  rewrite find_snoc, IH. destruct (last_such _ l); [done|].
  case_decide as Ha.
  - apply is_pending_running in Ha. by rewrite Ha.
  - destruct (is_pending a) eqn:Hp; [|done]. by apply is_pending_running in Hp.
Qed.

Lemma last_such_None l :
  last_such running_exec_request l = None <->
  Forall (fun b => ~ running_exec_request b) l.
Proof.
  induction l as [|x l IH]; simpl; [by split; [constructor|]|].
  destruct (last_such running_exec_request l).
  - split; [done|]. intros Hall. inversion Hall as [|? ? _ Hl]; subst.
    by apply IH in Hl.
  - case_decide as Hx; split; try done.
    + intros Hall. by inversion Hall.
    + intros _. constructor; [done|]. by apply IH.
Qed.

Lemma last_such_split l a :
  last_such running_exec_request l = Some a ->
  exists l1 l2, l = l1 ++ a :: l2 /\ running_exec_request a /\
    Forall (fun b => ~ running_exec_request b) l2.
Proof.
  induction l as [|x l IH]; simpl; [done|].
  destruct (last_such running_exec_request l) as [b|] eqn:Hb.
  - intros [= ->]. destruct (IH eq_refl) as (l1 & l2 & -> & Ha & Hl2).
    by exists (x :: l1), l2.
  - case_decide as Hx; [|done]. intros [= ->].
    exists [], l. split_and!; [done|done|]. by apply last_such_None.
Qed.

Lemma last_such_of_split l1 a l2 :
  running_exec_request a ->
  Forall (fun b => ~ running_exec_request b) l2 ->
  last_such running_exec_request (l1 ++ a :: l2) = Some a.
Proof.
  intros Ha Hl2. induction l1 as [|y l1 IH]; simpl.
  - apply last_such_None in Hl2. rewrite Hl2. by rewrite decide_True.
  - by rewrite IH.
Qed.

Lemma last_such_Some l a :
  last_such running_exec_request l = Some a <->
  exists l1 l2, l = l1 ++ a :: l2 /\ running_exec_request a /\
    Forall (fun b => ~ running_exec_request b) l2.
Proof.
  split; [apply last_such_split|].
  intros (l1 & l2 & -> & Ha & Hl2). by apply last_such_of_split.
Qed.

(** C3.  The derived pending execution request is the specification's
    latest running execution request: it is an action exactly when the
    flattened timeline (runs in [runOrder], each run's actions in order)
    splits around a last action of kind [exec_request] and status running,
    and it is [null] or [undefined] exactly when the timeline has no such
    action. *)
Theorem pendingExecRequest_is_latest_running reg :
  timelineActions reg = concat (map (actions_of reg) (runOrder reg)) /\
  match pendingExecRequest reg with
  | Defined a => latest_running_exec_request reg = Some a
  | Null | Undefined => latest_running_exec_request reg = None
  end /\
  (forall a, pendingExecRequest reg = Defined a <->
     exists before after,
       timelineActions reg = before ++ a :: after /\
       kind a = Some exec_request /\ status a = running /\
       Forall (fun b => ~ (kind b = Some exec_request /\ status b = running)) after) /\
  ((pendingExecRequest reg = Null \/ pendingExecRequest reg = Undefined) <->
     Forall (fun b => ~ (kind b = Some exec_request /\ status b = running))
       (timelineActions reg)).
Proof.
  assert (Hpe : pendingExecRequest reg =
                match timelineActions reg with
                | [] => Null
                | _ => match last_such running_exec_request (timelineActions reg) with
                       | Some a => Defined a
                       | None => Undefined
                       end
                end).
  { unfold pendingExecRequest. rewrite <- find_rev_last_such.
    by destruct (timelineActions reg). }
  unfold latest_running_exec_request. rewrite <- timelineActions_flattened.
  split_and!.
  - apply timelineActions_flattened.
  - rewrite Hpe. destruct (timelineActions reg) eqn:Htl; [done|].
    by destruct (last_such _ _).
  - intros a. rewrite Hpe.
    assert (Hiff : last_such running_exec_request (timelineActions reg) = Some a <->
              exists before after,
                timelineActions reg = before ++ a :: after /\
                kind a = Some exec_request /\ status a = running /\
                Forall (fun b => ~ (kind b = Some exec_request /\ status b = running)) after).
    { rewrite last_such_Some. unfold running_exec_request.
      split; intros (l1 & l2 & Hl & Hrest); exists l1, l2; tauto. }
    rewrite <- Hiff.
    destruct (timelineActions reg) eqn:Htl; [done|].
    destruct (last_such _ _); split; congruence.
  - rewrite Hpe.
    change (Forall (fun b => ~ (kind b = Some exec_request /\ status b = running))
              (timelineActions reg))
      with (Forall (fun b => ~ running_exec_request b) (timelineActions reg)).
    rewrite <- (last_such_None (timelineActions reg)).
    destruct (timelineActions reg) eqn:Htl; [by split; [|left]|].
    destruct (last_such _ _); split; try done; try by right.
    by intros [|].
Qed.

(** The instance the specification names: with requests in the states done,
    running, running over two runs, the pending one is the last. *)
Example pendingExecRequest_of_three_requests :
  pendingExecRequest Scenario.three_requests = Defined (Scenario.request "c3" running).
Proof. vm_compute. reflexivity. Qed.

(** ** The control channel *)

(** [sendPrompt] on an answered but refused enqueue: the flag is cleared
    and neither the registry nor the active task changes. *)
Lemma sendPrompt_not_ok env userId s payload :
  blank (input s) = false ->
  reply env (enqueueRequest userId s) = Response false payload ->
  let o := run env (sendPrompt userId s) s in
  threw o = false /\ loading (final o) = false /\
  registry (final o) = registry s /\ currentTaskId (final o) = currentTaskId s.
Proof.
  intros Hin Hres. unfold sendPrompt. rewrite Hin. cbn. rewrite Hres. cbn. done.
Qed.

(** C2, on the code.  When the [fetch] of the enqueue is rejected,
    [sendPrompt] leaves by that exception: no run is created and the
    active task is unchanged, but [loading], set before the request, is
    still true. *)
Theorem sendPrompt_rejected_fetch_keeps_loading env userId s :
  blank (input s) = false ->
  reply env (enqueueRequest userId s) = NetworkError ->
  let o := run env (sendPrompt userId s) s in
  threw o = true /\ loading (final o) = true /\
  registry (final o) = registry s /\ currentTaskId (final o) = currentTaskId s.
Proof.
  intros Hin Hres. unfold sendPrompt. rewrite Hin. cbn. rewrite Hres. cbn. done.
Qed.

(** After that exception the prompt box stays disabled and the send button
    does nothing: both are guarded by [loading]. *)
Lemma loading_blocks_prompt env userId s :
  loading s = true ->
  step env userId SendMessage s = s /\
  forall text, step env userId (Typed text) s = s.
Proof.
  intros Hl. unfold step, handler, handleSendMessage. rewrite Hl, orb_true_r. done.
Qed.

(** C10.  [sendPrompt] with non-blank input issues one request, the
    enqueue carrying the typed text, and the input buffer is already empty
    in the state in which it is issued; after a failed enqueue the buffer
    is still empty and the registry is the one before the call, so the
    text is gone although no run was created. *)
Theorem sendPrompt_discards_input env userId s :
  blank (input s) = false ->
  let o := run env (sendPrompt userId s) s in
  let req := enqueueRequest userId s in
  prop "query" (body req) = Some (JStr (input s)) /\
  sent o = [(req, setInput "" (setLoading true s))] /\
  (forall r st, (r, st) ∈ sent o -> input st = "") /\
  (enqueue_failed (reply env req) ->
   input (final o) = "" /\ registry (final o) = registry s).
Proof.
  intros Hin o req.
  assert (Hsent : sent o = [(req, setInput "" (setLoading true s))]).
  { subst o req. unfold sendPrompt. rewrite Hin. cbn.
    destruct (reply env _) as [[] payload|]; cbn; [|done|done].
    destruct (payload ≫= prop "task_id") as [[]|]; cbn; done. }
  split_and!.
  - done.
  - done.
  - intros r st. rewrite Hsent. intros Hel%list_elem_of_singleton. by simplify_eq.
  - subst o req. unfold sendPrompt. rewrite Hin. cbn.
    intros [Hres | [payload Hres]]; rewrite Hres; cbn; done.
Qed.

(** C8.  [cancelCurrentTask] does nothing and sends nothing when there is
    no active task ([currentTaskId] is null or empty) or a cancellation is
    in flight: the session, and [cancelling] in it, are as before.
    Otherwise it issues one request, the cancel of the active task, and in
    the state in which the request is issued [cancelling] is already true;
    afterwards [cancelling] is true when the response is ok, and false when
    the response is not ok or the [fetch] was rejected; every other part of
    the session is as before. *)
Theorem cancelCurrentTask_flag env userId s :
  let o := run env (cancelCurrentTask userId s) s in
  let req := cancelRequest userId s in
  (no_task (currentTaskId s) = true \/ cancelling s = true ->
   final o = s /\ cancelling (final o) = cancelling s /\
   sent o = [] /\ threw o = false) /\
  (no_task (currentTaskId s) = false /\ cancelling s = false ->
   (exists st, sent o = [(req, st)] /\ cancelling st = true /\
               st = setCancelling true s) /\
   prop "task_id" (body req) = opt_str (currentTaskId s) /\
   threw o = false /\
   (forall payload, reply env req = Response true payload ->
      cancelling (final o) = true) /\
   (forall payload, reply env req = Response false payload ->
      cancelling (final o) = false) /\
   (reply env req = NetworkError -> cancelling (final o) = false) /\
   final o = setCancelling
               (match reply env req with Response true _ => true | _ => false end) s /\
   (loading (final o) = loading s /\ currentTaskId (final o) = currentTaskId s /\
    input (final o) = input s /\ code (final o) = code s /\
    proposedCode (final o) = proposedCode s /\
    executingCode (final o) = executingCode s /\
    executionAction (final o) = executionAction s /\
    registry (final o) = registry s)).
Proof.
  intros o req. subst o req. unfold cancelCurrentTask. split.
  - intros [Hn | Hc].
    + rewrite Hn. cbn. done.
    + rewrite Hc, orb_true_r. cbn. done.
  - intros [Hn Hc]. rewrite Hn, Hc. cbn.
    split; [exists (setCancelling true s); by destruct (reply env _) as [[] ?|]|].
    split; [by destruct (currentTaskId s)|].
    split; [by destruct (reply env _) as [[] ?|]|].
    split; [intros payload Hr; by rewrite Hr|].
    split; [intros payload Hr; by rewrite Hr|].
    split; [intros Hr; by rewrite Hr|].
    split; by destruct (reply env _) as [[] ?|].
Qed.

(** ** Resolving an execution request *)

Lemma find_index_NoDup (l : list Action) i p :
  NoDup (id <$> l) -> l !! i = Some p -> find_index (id p) l = Some i.
Proof.
  intros Hnd Hi.
  assert (Hin : p ∈ l) by (apply list_elem_of_lookup; eauto).
  destruct (exists_find_index (id p) l p Hin eq_refl) as [j Hj].
  destruct (find_index_Some _ _ _ Hj) as (a & Ha & Hid & _).
  rewrite Hj. f_equal.
  apply (NoDup_lookup (id <$> l) j i (id p) Hnd).
  - by rewrite list_lookup_fmap, Ha, <- Hid.
  - by rewrite list_lookup_fmap, Hi.
Qed.

Lemma find_index_app_l aid (l k : list Action) i :
  find_index aid l = Some i -> find_index aid (l ++ k) = Some i.
Proof.
  revert i. induction l as [|x l IH]; intros i; simpl; [done|].
  case_decide; [done|].
  destruct (find_index aid l) as [j|]; simpl; [|done].
  intros [= <-]. by rewrite (IH j eq_refl).
Qed.

(** What the reject handler leaves, for any reply to its request. *)
Lemma reject_registry env userId s p tid :
  pendingExecRequest (registry s) = Defined p ->
  currentTaskId s = Some tid -> tid <> "" ->
  let o := run env (handleRejectExecution userId s) s in
  let msg := nullish_or (responseOnReject p) (JStr "Execution rejected.") in
  let notice := noticeAction "reject_" (now env) msg (iso env) in
  threw o = false /\
  map fst (sent o) = [completeToolRequest userId tid (id p) msg] /\
  final o =
    setExecutionAction None (setExecutingCode false
      (setRuns (fun reg => updateAction tid (id notice) (fun _ => notice)
                  (updateAction tid (id p) (statusUpdater failed) reg)) s)).
Proof.
  intros Hp Hc Hne. unfold handleRejectExecution. rewrite Hp, Hc.
  apply String.eqb_neq in Hne. rewrite Hne. cbn.
  destruct (reply env _); cbn; done.
Qed.

(** What the accept handler leaves, for any reply to its request. *)
Lemma accept_registry env userId s p tid :
  pendingExecRequest (registry s) = Defined p ->
  currentTaskId s = Some tid -> tid <> "" ->
  let o := run env (handleAcceptExecution userId s) s in
  let out := runCurrentCode env (code s) in
  let res := resultAction (now env) out (iso env) in
  threw o = false /\
  final o =
    setExecutionAction None (setExecutingCode false
      (setRuns (fun reg => updateAction tid (id p) (statusUpdater done)
                  (updateAction tid (id res) (fun _ => res) reg)) s)).
Proof.
  intros Hp Hc Hne. unfold handleAcceptExecution. rewrite Hp, Hc.
  apply String.eqb_neq in Hne. rewrite Hne. cbn.
  destruct (reply env _); cbn; done.
Qed.

Lemma runs_updateAction reg tid aid f r :
  runs reg !! tid = Some r ->
  runs (updateAction tid aid f reg) !! tid =
    Some (with_actions r (upsert aid f (actions r))).
Proof.
  intros Hr. unfold updateAction. rewrite Hr. cbn. by rewrite lookup_insert_eq.
Qed.

(** Where the handlers do advance.  Take a session whose pending execution
    request [p] is,
    in the run of the active task, the action its identifier denotes (the
    first action of that run with that identifier).  Whatever the reply
    [net] gives to the complete-tool request (an ok or a refusing response,
    or a rejected [fetch]), and provided the identifier synthesized for the
    new action is not yet used in the run: rejecting marks [p] failed in
    place and appends a [system_notice] whose message is the stored
    [responseOnReject], or "Execution rejected." when there is none;
    accepting appends an [exec_result] carrying the output of the code
    runner and marks [p] done in place. *)
Theorem resolveExecutionRequest_advances userId s p tid r i t ts exec :
  pendingExecRequest (registry s) = Defined p ->
  currentTaskId s = Some tid -> tid <> "" ->
  runs (registry s) !! tid = Some r ->
  find_index (id p) (actions r) = Some i ->
  actions r !! i = Some p ->
  let msg := nullish_or (responseOnReject p) (JStr "Execution rejected.") in
  let notice := noticeAction "reject_" t msg ts in
  let res := resultAction t (exec (code s)) ts in
  (kind notice = Some system_notice /\ message notice = Some msg /\
   kind res = Some exec_result /\ output res = Some (exec (code s)) /\
   status (with_status failed p) = failed /\ status (with_status done p) = done /\
   id (with_status failed p) = id p /\ kind (with_status failed p) = kind p /\
   id (with_status done p) = id p /\ kind (with_status done p) = kind p) /\
  (Forall (fun a => id a <> id notice) (actions r) ->
   forall net,
     let o := run (mkEnv net t ts exec) (handleRejectExecution userId s) s in
     threw o = false /\
     actions_of (registry (final o)) tid =
       <[i := with_status failed p]> (actions r) ++ [notice]) /\
  (Forall (fun a => id a <> id res) (actions r) ->
   forall net,
     let o := run (mkEnv net t ts exec) (handleAcceptExecution userId s) s in
     threw o = false /\
     actions_of (registry (final o)) tid =
       <[i := with_status done p]> (actions r) ++ [res]).
Proof.
  intros Hp Hc Hne Hr Hi Hpi msg notice res. split_and!; try done.
  - intros Hfresh net o.
    destruct (reject_registry (mkEnv net t ts exec) userId s p tid Hp Hc Hne)
      as (Hthrew & _ & Hfinal).
    split; [done|]. subst o. rewrite Hfinal. cbn.
    rewrite (actions_of_updateAction _ _ _ _ _
               (runs_updateAction _ _ _ _ _ Hr)). cbn.
    destruct (upsert_present (id p) (statusUpdater failed) _ _ Hi) as [-> _].
    rewrite Hpi. cbn. apply upsert_absent.
    apply Forall_insert; [done|]. cbn.
    rewrite Forall_forall in Hfresh. apply Hfresh.
    apply list_elem_of_lookup. eauto.
  - intros Hfresh net o.
    destruct (accept_registry (mkEnv net t ts exec) userId s p tid Hp Hc Hne)
      as (Hthrew & Hfinal).
    split; [done|]. subst o. rewrite Hfinal. cbn.
    rewrite (actions_of_updateAction _ _ _ _ _
               (runs_updateAction _ _ _ _ _ Hr)). cbn.
    rewrite (upsert_absent _ _ _ Hfresh). fold res.
    destruct (upsert_present (id p) (statusUpdater done) _ _
                (find_index_app_l _ _ [res] _ Hi)) as [-> _].
    assert (Hlt : (i < length (actions r))%nat) by by apply lookup_lt_Some in Hpi.
    rewrite (lookup_app_l _ _ _ Hlt), Hpi. cbn.
    by rewrite insert_app_l.
Qed.

(** ** Instances *)

(** The specification's scenario: the prompt "sort this array" acknowledged
    with [t1] gives run [t1] one [user_message] with that text; the started
    event of execution request [c1] adds a running [exec_request]; its
    completed event adds nothing. *)
Example prompt_then_execution_request :
  runOrder (registry Scenario.prompted) = ["t1"] /\
  (kind <$> actions_of (registry Scenario.prompted) "t1" = [Some user_message] /\
   content <$> actions_of (registry Scenario.prompted) "t1" =
     [Some (JStr "sort this array")]) /\
  ((fun a => (id a, kind a, status a)) <$> actions_of (registry Scenario.asked) "t1" =
     [(Some "user_999", Some user_message, done);
      (Some "c1", Some exec_request, running)]) /\
  step (Scenario.env NetworkError 1001) "u"
    (Message (Scenario.completed "t1" "c1" EXEC_TOOL (JStr "ok"))) Scenario.asked =
  Scenario.asked.
Proof. split_and!; vm_compute; reflexivity. Qed.

Lemma reachable_typed : reachable "u" Scenario.typed.
Proof. apply reach_step, reach_initial. Qed.

Lemma reachable_prompted : reachable "u" Scenario.prompted.
Proof. apply reach_step, reachable_typed. Qed.

Lemma reachable_asked_then_prompted : reachable "u" Scenario.asked_then_prompted.
Proof. do 4 apply reach_step. apply reachable_prompted. Qed.

(** C1, as stated, fails.  Run [t1] holds an action for the [think] call
    [c1]; the completed event of that call, with a string output, makes
    the run one action longer. *)
Lemma completed_think_lengthens_run :
  let s := Scenario.thinking in
  let event := Scenario.completed "t1" "c1" "think" (JStr "hmm") in
  let o := run (Scenario.env NetworkError 1001) (handleWSMessage event) s in
  reachable "u" s /\
  (exists a, a ∈ actions_of (registry s) "t1" /\ id a = Some "c1") /\
  (completed_tool_call event ≫= read_tool_call) =
    Some (ToolCall.mk "c1" "think" (Some (JObj []))) /\
  length (actions_of (registry s) "t1") = 2%nat /\
  length (actions_of (registry (final o)) "t1") = 3%nat /\
  length (actions_of (registry (final o)) "t1") <> length (actions_of (registry s) "t1").
Proof.
  split_and!.
  - apply reach_step, reachable_prompted.
  - eexists. split; [apply list_elem_of_lookup; exists 1%nat; reflexivity|].
    reflexivity.
  - reflexivity.
  - reflexivity.
  - vm_compute. reflexivity.
  - vm_compute. discriminate.
Qed.

(** C7, on the code.  In a reachable session the pending request [c1]
    belongs to the cancelled run [t1] while [t2] is the active task.
    Rejecting it, here with the network down, sends the complete-tool
    request for task [t2], leaves [c1] running and pending in run [t1], and
    files in run [t2] a record with no identifier and no kind next to the
    notice; accepting leaves [c1] pending as well.  The handlers update the
    run of [currentTaskId], whichever run the pending request is in. *)
Lemma reject_misses_request_of_earlier_run :
  let s := Scenario.asked_then_prompted in
  let env := Scenario.env NetworkError 3000 in
  let o := run env (handleRejectExecution "u" s) s in
  let o' := run env (handleAcceptExecution "u" s) s in
  reachable "u" s /\
  currentTaskId s = Some "t2" /\
  (exists p, pendingExecRequest (registry s) = Defined p /\ id p = Some "c1" /\
     kind p = Some exec_request /\ status p = running /\
     p ∈ actions_of (registry s) "t1" /\
     pendingExecRequest (registry (final o)) = Defined p /\
     pendingExecRequest (registry (final o')) = Defined p) /\
  map fst (sent o) = [completeToolRequest "u" "t2" (Some "c1") (JStr "no")] /\
  actions_of (registry (final o)) "t1" = actions_of (registry s) "t1" /\
  actions_of (registry (final o)) "t2" =
    actions_of (registry s) "t2" ++
    [bare failed; noticeAction "reject_" 3000 (JStr "no") "2025-06-01T12:00:00.000Z"] /\
  Forall (fun a => id a = Some "c1" -> status a <> failed)
    (timelineActions (registry (final o))) /\
  Forall (fun a => id a = Some "c1" -> status a <> done)
    (timelineActions (registry (final o'))).
Proof.
  split_and!.
  - apply reachable_asked_then_prompted.
  - reflexivity.
  - eexists. split_and!;
      [vm_compute; reflexivity|reflexivity|reflexivity|reflexivity|
       apply list_elem_of_lookup; exists 1%nat; vm_compute; reflexivity|
       vm_compute; reflexivity|vm_compute; reflexivity].
  - vm_compute. reflexivity.
  - vm_compute. reflexivity.
  - vm_compute. reflexivity.
  - apply (bool_decide_unpack _). vm_compute. exact I.
  - apply (bool_decide_unpack _). vm_compute. exact I.
Qed.

(** C9, on the code.  Two [think] completions handled within the same
    millisecond leave, in a reachable session, two [assistant_thought]
    actions with one identifier in run [t1]. *)
Theorem same_millisecond_thoughts_share_an_identifier :
  let s := Scenario.thought_twice in
  reachable "u" s /\
  ids_of (registry s) "t1" =
    [Some "user_999"; Some "c1"; Some "thought_1000"; Some "c2"; Some "thought_1000"] /\
  kind <$> actions_of (registry s) "t1" =
    [Some user_message; Some tool_completed; Some assistant_thought;
     Some tool_completed; Some assistant_thought] /\
  ~ NoDup (ids_of (registry s) "t1").
Proof.
  assert (Hids : ids_of (registry Scenario.thought_twice) "t1" =
    [Some "user_999"; Some "c1"; Some "thought_1000"; Some "c2"; Some "thought_1000"])
    by (vm_compute; reflexivity).
  split_and!.
  - do 2 apply reach_step. apply reachable_prompted.
  - exact Hids.
  - vm_compute. reflexivity.
  - rewrite Hids. intros Hnd.
    apply (NoDup_lookup _ 2%nat 4%nat (Some "thought_1000")) in Hnd; done.
Qed.

(** ** The theorems at concrete inputs *)

(** The completion of the execution request [c1] in the session that asked
    for it. *)
Lemma completed_exec_request_is_suppressed_witness :
  let event := Scenario.completed "t1" "c1" EXEC_TOOL (JStr "ok") in
  let o := run (Scenario.env NetworkError 1001) (handleWSMessage event) Scenario.asked in
  (Ev.event_type event = "progress_update_tool_action_completed" /\
   completed_tool_call event = Some (Scenario.descriptor "c1" EXEC_TOOL (JObj [])) /\
   read_tool_call (Scenario.descriptor "c1" EXEC_TOOL (JObj [])) =
     Some (ToolCall.mk "c1" EXEC_TOOL (Some (JObj [])))) /\
  (final o = Scenario.asked /\ threw o = false /\ sent o = [] /\
   timelineActions (registry (final o)) = timelineActions (registry Scenario.asked)).
Proof.
  split.
  - split_and!; reflexivity.
  - apply (completed_exec_request_is_suppressed
             (Scenario.env NetworkError 1001)
             (Scenario.completed "t1" "c1" EXEC_TOOL (JStr "ok"))
             (Scenario.descriptor "c1" EXEC_TOOL (JObj []))
             (ToolCall.mk "c1" EXEC_TOOL (Some (JObj []))) Scenario.asked);
      reflexivity.
Defined.

(** An answer for task [t1] in the session that prompted it. *)
Lemma agent_output_inserts_final_answer_witness :
  let event := Scenario.plain "agent_output" "t1" (Some (JStr "Sorted.")) in
  let o := run (Scenario.env NetworkError 1001) (handleWSMessage event) Scenario.prompted in
  Ev.event_type event = "agent_output" /\
  loading Scenario.prompted = true /\ currentTaskId Scenario.prompted = Some "t1" /\
  loading (final o) = false /\ currentTaskId (final o) = None /\
  actions_of (registry (final o)) "t1" =
    actions_of (registry Scenario.prompted) "t1" ++ [answerAction event 1001].
Proof.
  destruct (agent_output_inserts_final_answer
              (Scenario.env NetworkError 1001)
              (Scenario.plain "agent_output" "t1" (Some (JStr "Sorted.")))
              Scenario.prompted eq_refl)
    as (_ & _ & Hrun & _ & Hload & Htask & _).
  split_and!; [reflexivity|reflexivity|reflexivity|exact Hload|exact Htask|].
  apply (Hrun (mkRun "t1" "sort this array" (actions_of (registry Scenario.prompted) "t1"))).
  reflexivity.
Defined.

(** A failure of task [t2] while it is being cancelled. *)
Lemma run_failed_inserts_notice_witness :
  let event := Scenario.plain "run_failed" "t2" None in
  let s := setCancelling true Scenario.asked_then_prompted in
  let o := run (Scenario.env NetworkError 3000) (handleWSMessage event) s in
  Ev.event_type event = "run_failed" /\
  loading (final o) = false /\ cancelling (final o) = false /\
  currentTaskId (final o) = None /\
  actions_of (registry (final o)) "t2" =
    actions_of (registry s) "t2" ++
    [noticeAction "fail_" 3000 (JStr "Failed to get agent response.") (Ev.timestamp event)].
Proof.
  destruct (run_failed_inserts_notice
              (Scenario.env NetworkError 3000)
              (Scenario.plain "run_failed" "t2" None)
              (setCancelling true Scenario.asked_then_prompted) eq_refl)
    as (_ & _ & Hrun & Hload & Hcanc & Htask & _).
  split_and!; [reflexivity|exact Hload|exact Hcanc|exact Htask|].
  apply (Hrun (mkRun "t2" "again"
                 (actions_of (registry Scenario.asked_then_prompted) "t2"))).
  reflexivity.
Defined.

(** The completion of a [read_file] call that was never announced, and
    the completion of the announced [think] call [c1]. *)
Lemma completed_upserts_tool_completed_witness :
  let first := Scenario.completed "t1" "c7" "read_file" (JStr "text") in
  let o := run (Scenario.env NetworkError 1001) (handleWSMessage first) Scenario.prompted in
  let second := Scenario.completed "t1" "c1" "think" (JStr "hmm") in
  let o' := run (Scenario.env NetworkError 1001) (handleWSMessage second) Scenario.thinking in
  (exists c,
     actions_of (registry (final o)) "t1" =
       actions_of (registry Scenario.prompted) "t1" ++ [c] ++ [] /\
     id c = Some "c7" /\ kind c = Some tool_completed /\ status c = done) /\
  (exists c,
     actions_of (registry (final o')) "t1" =
       <[1%nat := c]> (actions_of (registry Scenario.thinking) "t1") ++
       [thoughtAction second 1001 "hmm"] /\
     kind c = Some tool_completed /\ status c = done /\ toolName c = Some "think").
Proof.
  split.
  - destruct (completed_upserts_tool_completed
                (Scenario.env NetworkError 1001)
                (Scenario.completed "t1" "c7" "read_file" (JStr "text"))
                (Scenario.descriptor "c7" "read_file" (JObj []))
                (ToolCall.mk "c7" "read_file" (Some (JObj [])))
                Scenario.prompted
                (mkRun "t1" "sort this array" (actions_of (registry Scenario.prompted) "t1"))
                eq_refl eq_refl eq_refl ltac:(discriminate) eq_refl)
      as (_ & _ & _ & Habsent & _).
    destruct Habsent as (c & Hc & Hid & Hkind & Hst & _).
    + repeat constructor; discriminate.
    + exists c. split_and!; [exact Hc|exact Hid|exact Hkind|exact Hst].
  - destruct (completed_upserts_tool_completed
                (Scenario.env NetworkError 1001)
                (Scenario.completed "t1" "c1" "think" (JStr "hmm"))
                (Scenario.descriptor "c1" "think" (JObj []))
                (ToolCall.mk "c1" "think" (Some (JObj [])))
                Scenario.thinking
                (mkRun "t1" "sort this array" (actions_of (registry Scenario.thinking) "t1"))
                eq_refl eq_refl eq_refl ltac:(discriminate) eq_refl)
      as (_ & _ & _ & _ & Hpresent).
    destruct Hpresent as (i & a & c & Hi & Ha & Hafter & _ & _ & _ & Hkind & Hst & _ & Hname & _).
    + eexists. split; [apply list_elem_of_lookup; exists 1%nat; reflexivity|].
      reflexivity.
    + injection Hi as <-. injection Ha as <-.
      exists c. split_and!; [exact Hafter|exact Hkind|exact Hst|exact Hname].
Defined.

(** Rejecting and accepting the request [c1] of the active run [t1], with
    the network down. *)
Lemma resolveExecutionRequest_advances_witness :
  let s := Scenario.asked in
  let p := startAction
             (Scenario.started "t1" "c1" EXEC_TOOL (JObj [("response_on_reject", JStr "no")]))
             (ToolCall.mk "c1" EXEC_TOOL (Some (JObj [("response_on_reject", JStr "no")]))) in
  let env := mkEnv (fun _ => NetworkError) 3000 "2025-06-01T12:05:00.000Z" (fun _ => "42") in
  (pendingExecRequest (registry s) = Defined p /\ currentTaskId s = Some "t1" /\
   actions_of (registry s) "t1" !! 1%nat = Some p) /\
  actions_of (registry (final (run env (handleRejectExecution "u" s) s))) "t1" =
    <[1%nat := with_status failed p]> (actions_of (registry s) "t1") ++
    [noticeAction "reject_" 3000 (JStr "no") "2025-06-01T12:05:00.000Z"] /\
  actions_of (registry (final (run env (handleAcceptExecution "u" s) s))) "t1" =
    <[1%nat := with_status done p]> (actions_of (registry s) "t1") ++
    [resultAction 3000 "42" "2025-06-01T12:05:00.000Z"].
Proof.
  destruct (resolveExecutionRequest_advances "u" Scenario.asked
              (startAction
                 (Scenario.started "t1" "c1" EXEC_TOOL (JObj [("response_on_reject", JStr "no")]))
                 (ToolCall.mk "c1" EXEC_TOOL (Some (JObj [("response_on_reject", JStr "no")]))))
              "t1"
              (mkRun "t1" "sort this array" (actions_of (registry Scenario.asked) "t1"))
              1%nat 3000 "2025-06-01T12:05:00.000Z" (fun _ => "42")
              eq_refl eq_refl ltac:(discriminate) eq_refl eq_refl eq_refl)
    as (_ & Hreject & Haccept).
  cbv zeta. split_and!.
  - reflexivity.
  - reflexivity.
  - reflexivity.
  - apply (Hreject ltac:(repeat constructor; discriminate) (fun _ => NetworkError)).
  - apply (Haccept ltac:(repeat constructor; discriminate) (fun _ => NetworkError)).
Defined.

(** The typed prompt sent while the network is down. *)
Lemma sendPrompt_rejected_fetch_keeps_loading_witness :
  let s := Scenario.typed in
  let env := Scenario.env NetworkError 999 in
  let o := run env (sendPrompt "u" s) s in
  (blank (input s) = false /\ reply env (enqueueRequest "u" s) = NetworkError /\
   loading s = false) /\
  (threw o = true /\ loading (final o) = true /\
   registry (final o) = registry s /\ currentTaskId (final o) = currentTaskId s).
Proof.
  split.
  - split_and!; reflexivity.
  - apply (sendPrompt_rejected_fetch_keeps_loading
             (Scenario.env NetworkError 999) "u" Scenario.typed); reflexivity.
Defined.

(** The typed prompt refused by the server. *)
Lemma sendPrompt_discards_input_witness :
  let s := Scenario.typed in
  let env := Scenario.env (Response false None) 999 in
  let o := run env (sendPrompt "u" s) s in
  (blank (input s) = false /\ input s = "sort this array" /\
   enqueue_failed (reply env (enqueueRequest "u" s))) /\
  (input (final o) = "" /\ registry (final o) = registry s).
Proof.
  assert (Hfailed : enqueue_failed
            (reply (Scenario.env (Response false None) 999)
                   (enqueueRequest "u" Scenario.typed)))
    by (right; exists None; reflexivity).
  split.
  - split_and!; [reflexivity|reflexivity|exact Hfailed].
  - destruct (sendPrompt_discards_input (Scenario.env (Response false None) 999) "u"
                Scenario.typed eq_refl) as (_ & _ & _ & Hfail).
    exact (Hfail Hfailed).
Defined.

(** A cancel refused by the server, and a cancel with no active task. *)
Lemma cancelCurrentTask_flag_witness :
  let s := Scenario.prompted in
  let refused := Scenario.env (Response false None) 1200 in
  let accepted := Scenario.env (Response true None) 1200 in
  (no_task (currentTaskId s) = false /\ cancelling s = false) /\
  (exists st, sent (run refused (cancelCurrentTask "u" s) s) = [(cancelRequest "u" s, st)] /\
              cancelling st = true) /\
  cancelling (final (run refused (cancelCurrentTask "u" s) s)) = false /\
  cancelling (final (run accepted (cancelCurrentTask "u" s) s)) = true /\
  (no_task (currentTaskId Scenario.typed) = true /\
   final (run refused (cancelCurrentTask "u" Scenario.typed) Scenario.typed) =
     Scenario.typed).
Proof.
  destruct (cancelCurrentTask_flag (Scenario.env (Response false None) 1200) "u"
              Scenario.prompted) as [_ Hrefused].
  destruct (Hrefused (conj eq_refl eq_refl))
    as ((st & Hsent & Hst & _) & _ & _ & _ & Hfalse & _).
  destruct (cancelCurrentTask_flag (Scenario.env (Response true None) 1200) "u"
              Scenario.prompted) as [_ Haccepted].
  destruct (Haccepted (conj eq_refl eq_refl)) as (_ & _ & _ & Htrue & _).
  destruct (cancelCurrentTask_flag (Scenario.env (Response false None) 1200) "u"
              Scenario.typed) as [Hidle _].
  destruct (Hidle (or_introl eq_refl)) as (Hfinal & _).
  cbv zeta. split; [split; reflexivity|].
  split; [exists st; split; [exact Hsent|exact Hst]|].
  split; [exact (Hfalse None eq_refl)|].
  split; [exact (Htrue None eq_refl)|].
  split; [reflexivity|exact Hfinal].
Defined.

(** * Further properties of the code *)

(** ** Handler bodies, update by update *)

Lemma every_update_seq T p q :
  every_update T p -> every_update T q -> every_update T (p ;; q)%prog.
Proof.
  intros Hp Hq. induction p as [| |f k IH|r k IH|k IH|k IH|c k IH|m k IH];
    simpl in *; try done.
  - destruct Hp. auto.
  - intros x. by apply IH.
  - intros x. by apply IH.
  - intros x. by apply IH.
  - intros x. by apply IH.
  - by apply IH.
Qed.

Lemma run_every_update T `{!Reflexive T, !Transitive T} env p s :
  every_update T p -> T s (final (run env p s)).
Proof.
  revert s. induction p as [| |f k IH|r k IH|k IH|k IH|c k IH|m k IH];
    intros s Hp; simpl in *; try reflexivity.
  - destruct Hp as [Hf Hk]. etrans; [apply Hf|]. by apply IH.
  - by apply IH.
  - by apply IH.
  - by apply IH.
  - by apply IH.
  - by apply IH.
Qed.

Lemma silent_seq p q : silent p -> silent q -> silent (p ;; q)%prog.
Proof.
  intros Hp Hq. induction p as [| |f k IH|r k IH|k IH|k IH|c k IH|m k IH];
    simpl in *; try done; auto.
Qed.

Lemma run_silent env p s : silent p -> sent (run env p s) = [].
Proof.
  revert s. induction p as [| |f k IH|r k IH|k IH|k IH|c k IH|m k IH];
    intros s Hp; simpl in *; try done; auto.
Qed.

(** ** The store, run by run *)

Lemma run_grows_refl tid reg : run_grows tid reg reg.
Proof.
  split_and!; [done|done|]. destruct (runs reg !! tid) as [r|]; [|done].
  by exists r.
Qed.

Lemma run_grows_trans tid reg1 reg2 reg3 :
  run_grows tid reg1 reg2 -> run_grows tid reg2 reg3 -> run_grows tid reg1 reg3.
Proof.
  intros (Ho1 & Hother1 & Hrun1) (Ho2 & Hother2 & Hrun2). split_and!.
  - congruence.
  - intros t Ht. rewrite Hother2, Hother1; done.
  - destruct (runs reg1 !! tid) as [r1|].
    + destruct Hrun1 as (r2 & Hr2 & Ht2 & Hp2 & Hpre2). rewrite Hr2 in Hrun2.
      destruct Hrun2 as (r3 & Hr3 & Ht3 & Hp3 & Hpre3).
      exists r3. split_and!; [done|congruence|congruence|by etrans].
    + by rewrite Hrun1 in Hrun2.
Qed.

Lemma run_grows_addAction tid a reg : run_grows tid reg (addAction tid a reg).
Proof.
  unfold addAction. destruct (runs reg !! tid) as [r|] eqn:Hr.
  - split_and!; [done| |].
    + intros t Ht. cbn. by rewrite lookup_insert_ne.
    + rewrite Hr. eexists. cbn. rewrite lookup_insert_eq. split_and!; try done.
      cbn. rewrite fmap_app. by apply prefix_app_r.
  - apply run_grows_refl.
Qed.

Lemma upsert_ids_prefix aid f l :
  (forall a, id a = aid -> id (f (Some a)) = aid) ->
  (id <$> l) `prefix_of` (id <$> upsert aid f l).
Proof.
  intros Hf. unfold upsert. destruct (find_index aid l) as [i|] eqn:Hi.
  - destruct (find_index_Some _ _ _ Hi) as (a & Ha & Hid & _).
    rewrite list_fmap_insert, Ha, (Hf a Hid).
    rewrite list_insert_id; [done|]. by rewrite list_lookup_fmap, Ha, <- Hid.
  - rewrite fmap_app. by apply prefix_app_r.
Qed.

Lemma run_grows_updateAction tid aid f reg :
  (forall a, id a = aid -> id (f (Some a)) = aid) ->
  run_grows tid reg (updateAction tid aid f reg).
Proof.
  intros Hf. unfold updateAction. destruct (runs reg !! tid) as [r|] eqn:Hr.
  - split_and!; [done| |].
    + intros t Ht. cbn. by rewrite lookup_insert_ne.
    + rewrite Hr. eexists. cbn. rewrite lookup_insert_eq. split_and!; try done.
      cbn. by apply upsert_ids_prefix.
  - apply run_grows_refl.
Qed.

#[local] Instance reducer_frame_refl tid : Reflexive (reducer_frame tid).
Proof. intros s. unfold reducer_frame. split_and!; try done. apply run_grows_refl. Qed.

#[local] Instance reducer_frame_trans tid : Transitive (reducer_frame tid).
Proof.
  intros s1 s2 s3 (? & ? & ? & ? & H12) (? & ? & ? & ? & H23).
  unfold reducer_frame. split_and!; try congruence. by eapply run_grows_trans.
Qed.

Lemma completedUpdater_id event tc out a :
  id (completedUpdater event tc out (Some a)) = id a.
Proof. done. Qed.

Lemma failedUpdater_id event tc a : id (failedUpdater event tc (Some a)) = id a.
Proof. done. Qed.

Ltac frame_step :=
  unfold reducer_frame; cbn; split_and!; try done;
  first [ apply run_grows_refl
        | apply run_grows_addAction
        | apply run_grows_updateAction; by intros ? <- ].

(** Walks a body whose tests are decided, proving each update with [tac]. *)
Ltac updates tac :=
  cbn;
  lazymatch goal with
  | |- True => exact I
  | |- _ /\ _ => split; [intros ?; tac | updates tac]
  | |- forall _, _ => intros ?; updates tac
  end.

Lemma handleWSMessage_updates event :
  every_update (reducer_frame (Ev.task_id event)) (handleWSMessage event).
Proof.
  unfold handleWSMessage. cbn. repeat case_match; updates ltac:(frame_step).
Qed.

Lemma handleWSMessage_silent event : silent (handleWSMessage event).
Proof.
  unfold handleWSMessage. cbn. repeat case_match; cbn; done.
Qed.

(** ** The event reducer, for every event *)

Lemma handleWSMessage_frame env event s :
  reducer_frame (Ev.task_id event) s (final (run env (handleWSMessage event) s)).
Proof. apply run_every_update; [apply _..|]. apply handleWSMessage_updates. Qed.

(** X1.  For an event of the declared shape whose run the registry knows,
    or which is filed by [addAction]: the reducer sends no request and
    leaves the input, the editor code and the execution flags alone; it
    creates, removes and reorders no run and changes no run other than the
    one the event names; and when the registry does not know the task of
    the event (then a started event or one that ends a run, or an unlisted
    one), the whole registry is as it was. *)
Theorem reducer_touches_one_run env event s :
  declared_shape event ->
  is_Some (runs (registry s) !! Ev.task_id event) \/ ~ upserting event ->
  let o := run env (handleWSMessage event) s in
  sent o = [] /\
  (input (final o) = input s /\ code (final o) = code s /\
   executingCode (final o) = executingCode s /\
   executionAction (final o) = executionAction s) /\
  runOrder (registry (final o)) = runOrder (registry s) /\
  (forall t, is_Some (runs (registry (final o)) !! t) <->
             is_Some (runs (registry s) !! t)) /\
  (forall t, t <> Ev.task_id event ->
     runs (registry (final o)) !! t = runs (registry s) !! t) /\
  (runs (registry s) !! Ev.task_id event = None ->
   registry (final o) = registry s).
Proof.
  intros _ _ o.
  destruct (handleWSMessage_frame env event s)
    as (Hin & Hcode & Hex & Hact & Horder & Hother & Hrun).
  fold o in Hin, Hcode, Hex, Hact, Horder, Hother, Hrun.
  split_and!; try done.
  - apply run_silent, handleWSMessage_silent.
  - intros t. destruct (decide (t = Ev.task_id event)) as [->|Hne].
    + destruct (runs (registry s) !! Ev.task_id event) as [r|].
      * destruct Hrun as (r' & -> & _). by split; eexists.
      * by rewrite Hrun.
    + by rewrite (Hother t Hne).
  - intros Hnone. rewrite Hnone in Hrun.
    assert (Hruns : runs (registry (final o)) = runs (registry s)).
    { apply map_eq. intros t. destruct (decide (t = Ev.task_id event)) as [->|Hne].
      - by rewrite Hrun, Hnone.
      - by apply Hother. }
    destruct (registry (final o)), (registry s). cbn in *. congruence.
Qed.

Lemma declared_shape_completed tid i n out :
  declared_shape (Scenario.completed tid i n out).
Proof.
  split.
  - intros [H|H]; discriminate H.
  - intros _ _. by eexists.
Qed.

Lemma declared_shape_started tid i n args :
  declared_shape (Scenario.started tid i n args).
Proof.
  split.
  - intros _ _. by eexists.
  - intros H. discriminate H.
Qed.

Lemma declared_shape_plain ty tid payload :
  ty <> "progress_update_tool_action_started" ->
  ty <> "progress_update_tool_action_completed" ->
  ty <> "progress_update_tool_action_failed" ->
  declared_shape (Scenario.plain ty tid payload).
Proof. intros H1 H2 H3. split; [intros [H|H]|intros H]; cbn in H; congruence. Qed.

Lemma started_not_upserting tid i n args :
  ~ upserting (Scenario.started tid i n args).
Proof. intros [H|H]; discriminate H. Qed.

Lemma plain_not_upserting ty tid payload :
  ty <> "progress_update_tool_action_completed" ->
  ty <> "progress_update_tool_action_failed" ->
  ~ upserting (Scenario.plain ty tid payload).
Proof. intros H1 H2 [H|H]; cbn in H; congruence. Qed.

Lemma reducer_touches_one_run_witness :
  let known := Scenario.completed "t1" "c1" "think" (JStr "hmm") in
  let unknown := Scenario.started "t9" "c1" "think" (JObj []) in
  let o := run (Scenario.env NetworkError 1001) (handleWSMessage known) Scenario.thinking in
  let o' := run (Scenario.env NetworkError 1001) (handleWSMessage unknown) Scenario.thinking in
  (is_Some (runs (registry Scenario.thinking) !! "t1") /\
   runs (registry Scenario.thinking) !! "t9" = None) /\
  (sent o = [] /\ runOrder (registry (final o)) = ["t1"]) /\
  registry (final o') = registry Scenario.thinking.
Proof.
  assert (Hknown : is_Some (runs (registry Scenario.thinking) !! "t1")) by by eexists.
  destruct (reducer_touches_one_run (Scenario.env NetworkError 1001)
              (Scenario.completed "t1" "c1" "think" (JStr "hmm")) Scenario.thinking
              (declared_shape_completed _ _ _ _) (or_introl Hknown))
    as (Hsent & _ & Horder & _).
  destruct (reducer_touches_one_run (Scenario.env NetworkError 1001)
              (Scenario.started "t9" "c1" "think" (JObj [])) Scenario.thinking
              (declared_shape_started _ _ _ _)
              (or_intror (started_not_upserting _ _ _ _)))
    as (_ & _ & _ & _ & _ & Hsame).
  cbv zeta. split; [split; [exact Hknown|reflexivity]|].
  split; [split; [exact Hsent|exact Horder]|].
  exact (Hsame eq_refl).
Defined.

(** X2.  For an event of the declared shape whose run the registry knows,
    or which is filed by [addAction], every run keeps its identifiers in
    place: the identifiers a run had, in order, are the first identifiers
    it has afterwards.  So the reducer removes and reorders no action, and
    no run gets shorter. *)
Theorem reducer_keeps_identifiers env event s t :
  declared_shape event ->
  is_Some (runs (registry s) !! Ev.task_id event) \/ ~ upserting event ->
  let o := run env (handleWSMessage event) s in
  (id <$> actions_of (registry s) t) `prefix_of`
    (id <$> actions_of (registry (final o)) t) /\
  (length (actions_of (registry s) t) <=
   length (actions_of (registry (final o)) t))%nat.
Proof.
  intros _ _ o.
  assert (Hpre : (id <$> actions_of (registry s) t) `prefix_of`
                 (id <$> actions_of (registry (final o)) t)).
  { destruct (handleWSMessage_frame env event s) as (_ & _ & _ & _ & _ & Hother & Hrun).
    fold o in Hother, Hrun. unfold actions_of.
    destruct (decide (t = Ev.task_id event)) as [->|Hne].
    - destruct (runs (registry s) !! Ev.task_id event) as [r|].
      + by destruct Hrun as (r' & -> & _ & _ & Hpre).
      + by rewrite Hrun.
    - by rewrite (Hother t Hne). }
  split; [done|]. apply prefix_length in Hpre. by rewrite !length_fmap in Hpre.
Qed.

Lemma reducer_keeps_identifiers_witness :
  let event := Scenario.completed "t1" "c1" "think" (JStr "hmm") in
  let o := run (Scenario.env NetworkError 1001) (handleWSMessage event) Scenario.thinking in
  ids_of (registry Scenario.thinking) "t1" = [Some "user_999"; Some "c1"] /\
  ids_of (registry (final o)) "t1" = [Some "user_999"; Some "c1"; Some "thought_1001"] /\
  (ids_of (registry Scenario.thinking) "t1") `prefix_of` (ids_of (registry (final o)) "t1").
Proof.
  assert (Hknown : is_Some (runs (registry Scenario.thinking) !! "t1")) by by eexists.
  destruct (reducer_keeps_identifiers (Scenario.env NetworkError 1001)
              (Scenario.completed "t1" "c1" "think" (JStr "hmm")) Scenario.thinking "t1"
              (declared_shape_completed _ _ _ _) (or_introl Hknown))
    as (Hpre & _).
  cbv zeta. split; [vm_compute; reflexivity|]. split; [vm_compute; reflexivity|].
  exact Hpre.
Defined.

(** X3.  An event without a usable payload is skipped: a started or failed
    event whose [data.args[0]] is falsy, a completed event whose
    [data.result.tool_call] is falsy (in particular any of the three with
    no [data] at all), and an event of an unlisted type leave the session
    as it is, raise nothing and send nothing. *)
Theorem event_without_descriptor_is_skipped env event s :
  ((Ev.event_type event = "progress_update_tool_action_started" \/
    Ev.event_type event = "progress_update_tool_action_failed") /\
   truthy (announced_tool_call event) = false) \/
  (Ev.event_type event = "progress_update_tool_action_completed" /\
   truthy (completed_tool_call event) = false) \/
  (Ev.event_type event <> "progress_update_tool_action_started" /\
   Ev.event_type event <> "progress_update_tool_action_completed" /\
   Ev.event_type event <> "progress_update_tool_action_failed" /\
   ~ terminal event) ->
  let o := run env (handleWSMessage event) s in
  final o = s /\ threw o = false /\ sent o = [].
Proof.
  unfold announced_tool_call, completed_tool_call, terminal, handleWSMessage.
  intros [[[Ht|Ht] Hd] | [[Ht Hd] | (H1 & H2 & H3 & H4)]].
  - rewrite Ht. cbn. by rewrite Hd.
  - rewrite Ht. cbn. by rewrite Hd.
  - rewrite Ht. cbn. by rewrite Hd.
  - apply String.eqb_neq in H1, H2, H3. rewrite H1, H2, H3. cbn.
    destruct (String.eqb _ "agent_output") eqn:Ha.
    { apply String.eqb_eq in Ha. tauto. }
    destruct (String.eqb _ "run_cancelled") eqn:Hc.
    { apply String.eqb_eq in Hc. tauto. }
    destruct (String.eqb _ "run_failed") eqn:Hf.
    { apply String.eqb_eq in Hf. tauto. }
    done.
Qed.

Lemma event_without_descriptor_is_skipped_witness :
  let bare_failed := Scenario.plain "progress_update_tool_action_failed" "t1" None in
  let other := Scenario.plain "progress_update_thinking" "t1" (Some (JStr "...")) in
  truthy (announced_tool_call bare_failed) = false /\
  final (run (Scenario.env NetworkError 1001) (handleWSMessage bare_failed)
           Scenario.prompted) = Scenario.prompted /\
  final (run (Scenario.env NetworkError 1001) (handleWSMessage other)
           Scenario.prompted) = Scenario.prompted.
Proof.
  split_and!.
  - reflexivity.
  - apply (event_without_descriptor_is_skipped (Scenario.env NetworkError 1001)
             (Scenario.plain "progress_update_tool_action_failed" "t1" None)
             Scenario.prompted).
    left. split; [right|]; reflexivity.
  - apply (event_without_descriptor_is_skipped (Scenario.env NetworkError 1001)
             (Scenario.plain "progress_update_thinking" "t1" (Some (JStr "...")))
             Scenario.prompted).
    right. right. unfold terminal. cbn.
    split_and!; try discriminate. intros [H|[H|H]]; discriminate H.
Defined.

(** ** The timeline and what is pending *)

Lemma elem_of_timeline reg x :
  x ∈ timelineActions reg <->
  exists t, t ∈ runOrder reg /\ x ∈ actions_of reg t.
Proof.
  unfold timelineActions. rewrite list_elem_of_In, in_flat_map.
  split; intros (t & Ht & Hx); exists t; by rewrite ?list_elem_of_In in *.
Qed.

Lemma pending_is_last_such reg :
  pendingExecRequest reg =
  match timelineActions reg with
  | [] => Null
  | _ => match last_such running_exec_request (timelineActions reg) with
         | Some a => Defined a
         | None => Undefined
         end
  end.
Proof.
  unfold pendingExecRequest. rewrite <- find_rev_last_such.
  by destruct (timelineActions reg).
Qed.

(** Nothing is pending when no run holds a running execution request. *)
Lemma nothing_pending reg :
  (forall t, t ∈ runOrder reg ->
     Forall (fun a => ~ running_exec_request a) (actions_of reg t)) ->
  forall a, pendingExecRequest reg <> Defined a.
Proof.
  intros Hall a. rewrite pending_is_last_such.
  destruct (timelineActions reg) as [|x tl] eqn:Htl; [done|].
  destruct (last_such _ _) as [b|] eqn:Hb; [|done].
  apply last_such_split in Hb as (l1 & l2 & Hsplit & Hrun & _).
  assert (Hin : b ∈ timelineActions reg).
  { rewrite Htl, Hsplit. apply elem_of_app. right. by left. }
  apply elem_of_timeline in Hin as (t & Ht & Hb).
  specialize (Hall t Ht). rewrite Forall_forall in Hall. by destruct (Hall b Hb).
Qed.

(** The one running execution request of the timeline is the pending one. *)
Lemma only_running_is_pending reg a :
  a ∈ timelineActions reg -> running_exec_request a ->
  (forall b, b ∈ timelineActions reg -> running_exec_request b -> b = a) ->
  pendingExecRequest reg = Defined a.
Proof.
  intros Hin Hrun Honly. rewrite pending_is_last_such.
  destruct (timelineActions reg) as [|x tl] eqn:Htl; [by apply elem_of_nil in Hin|].
  destruct (last_such _ _) as [b|] eqn:Hb.
  - apply last_such_split in Hb as (l1 & l2 & Hsplit & Hrb & _).
    f_equal. apply Honly; [|done]. rewrite Hsplit.
    apply elem_of_app. right. by left.
  - apply last_such_None in Hb. rewrite Forall_forall in Hb. by destruct (Hb a Hin).
Qed.

(** ** Started and failed events *)

Lemma started_final env event tcj tc s :
  Ev.event_type event = "progress_update_tool_action_started" ->
  announced_tool_call event = Some tcj ->
  read_tool_call tcj = Some tc ->
  final (run env (handleWSMessage event) s) =
    setRuns (addAction (Ev.task_id event) (startAction event tc)) s.
Proof.
  intros Htype Hdesc Hread. unfold announced_tool_call in Hdesc.
  unfold handleWSMessage. rewrite Htype. cbn.
  rewrite Hdesc, (read_tool_call_truthy _ _ Hread). cbn. by rewrite Hread.
Qed.

(** X4.  A started event with a descriptor, for a run the registry knows,
    appends one running action keyed by the tool-call identifier, whether
    or not the run already holds that identifier: for the
    execution-request tool an [exec_request] carrying
    [arguments?.response_on_reject] (and no tool name), for any other tool
    a [tool_started] carrying the tool name and the arguments.  Nothing
    else in the session changes. *)
Theorem started_appends_running_action env event tcj tc s r :
  Ev.event_type event = "progress_update_tool_action_started" ->
  announced_tool_call event = Some tcj ->
  read_tool_call tcj = Some tc ->
  runs (registry s) !! Ev.task_id event = Some r ->
  let o := run env (handleWSMessage event) s in
  let a := startAction event tc in
  final o = setRuns (addAction (Ev.task_id event) a) s /\
  actions_of (registry (final o)) (Ev.task_id event) = actions r ++ [a] /\
  (id a = Some (ToolCall.id tc) /\ status a = running /\
   timestamp a = Some (Ev.timestamp event)) /\
  (ToolCall.name tc = EXEC_TOOL ->
   kind a = Some exec_request /\ toolName a = None /\
   responseOnReject a = opt_prop "response_on_reject" (ToolCall.arguments tc)) /\
  (ToolCall.name tc <> EXEC_TOOL ->
   kind a = Some tool_started /\ toolName a = Some (ToolCall.name tc) /\
   arguments a = ToolCall.arguments tc /\ responseOnReject a = None).
Proof.
  intros Htype Hdesc Hread Hr. unfold announced_tool_call in Hdesc.
  unfold handleWSMessage. rewrite Htype. cbn.
  rewrite Hdesc, (read_tool_call_truthy _ _ Hread). cbn. rewrite Hread. cbn.
  split; [done|]. split; [by apply actions_of_addAction|].
  split; [unfold startAction; by destruct (String.eqb _ _)|]. split.
  - intros Hn. unfold startAction. by rewrite Hn.
  - intros Hn%String.eqb_neq. unfold startAction. by rewrite Hn.
Qed.

Lemma started_appends_running_action_witness :
  let event := Scenario.started "t1" "c1" EXEC_TOOL (JObj [("response_on_reject", JStr "no")]) in
  let o := run (Scenario.env NetworkError 1000) (handleWSMessage event) Scenario.prompted in
  (fun a => (id a, kind a, status a, responseOnReject a)) <$>
    actions_of (registry (final o)) "t1" =
  [(Some "user_999", Some user_message, done, None);
   (Some "c1", Some exec_request, running, Some (JStr "no"))].
Proof.
  destruct (started_appends_running_action (Scenario.env NetworkError 1000)
              (Scenario.started "t1" "c1" EXEC_TOOL (JObj [("response_on_reject", JStr "no")]))
              (Scenario.descriptor "c1" EXEC_TOOL (JObj [("response_on_reject", JStr "no")]))
              (ToolCall.mk "c1" EXEC_TOOL (Some (JObj [("response_on_reject", JStr "no")])))
              Scenario.prompted
              (mkRun "t1" "sort this array" (actions_of (registry Scenario.prompted) "t1"))
              eq_refl eq_refl eq_refl eq_refl) as (_ & Hacts & _).
  exact (eq_trans
           (f_equal (fmap (fun a => (id a, kind a, status a, responseOnReject a))) Hacts)
           eq_refl).
Defined.

(** X5.  When no execution request is running anywhere, the started event
    of an execution request for a known run listed in [runOrder] makes
    that request the pending one. *)
Theorem started_exec_request_becomes_pending env event tcj tc s r :
  Ev.event_type event = "progress_update_tool_action_started" ->
  announced_tool_call event = Some tcj ->
  read_tool_call tcj = Some tc ->
  ToolCall.name tc = EXEC_TOOL ->
  runs (registry s) !! Ev.task_id event = Some r ->
  Ev.task_id event ∈ runOrder (registry s) ->
  (forall a, pendingExecRequest (registry s) <> Defined a) ->
  let o := run env (handleWSMessage event) s in
  pendingExecRequest (registry (final o)) = Defined (startAction event tc).
Proof.
  intros Htype Hdesc Hread Hname Hr Hin Hnone o.
  pose proof (started_final env event tcj tc s Htype Hdesc Hread) as Hfinal.
  fold o in Hfinal.
  assert (Hacts : actions_of (registry (final o)) (Ev.task_id event) =
                  actions r ++ [startAction event tc]).
  { rewrite Hfinal. by apply actions_of_addAction. }
  assert (Hkind : kind (startAction event tc) = Some exec_request).
  { unfold startAction. by rewrite Hname. }
  assert (Hquiet : Forall (fun a => ~ running_exec_request a)
                     (timelineActions (registry s))).
  { apply last_such_None. specialize (Hnone) as Hn.
    destruct (last_such running_exec_request (timelineActions (registry s)))
      as [b|] eqn:Hb; [|done].
    exfalso. apply (Hn b). rewrite pending_is_last_such, Hb.
    destruct (timelineActions (registry s)); [done|done]. }
  rewrite Forall_forall in Hquiet.
  assert (Hold : forall t x, x ∈ actions_of (registry (final o)) t ->
            x ∈ actions_of (registry s) t \/ x = startAction event tc).
  { intros t x. rewrite Hfinal. cbn.
    destruct (decide (Ev.task_id event = t)) as [<-|Hne].
    - rewrite (actions_of_addAction _ _ _ _ Hr). unfold actions_of. rewrite Hr.
      intros [Hx|Hx%list_elem_of_singleton]%elem_of_app; auto.
    - rewrite (actions_of_addAction_other _ _ _ _ Hne). auto. }
  assert (Horder : runOrder (registry (final o)) = runOrder (registry s)).
  { rewrite Hfinal. cbn. apply runOrder_addAction. }
  apply only_running_is_pending.
  - apply elem_of_timeline. exists (Ev.task_id event). rewrite Horder. split; [done|].
    rewrite Hacts. apply elem_of_app. right. by left.
  - split; [done|]. unfold startAction. by destruct (String.eqb _ _).
  - intros b (t & Ht & Hb)%elem_of_timeline Hrun.
    destruct (Hold t b Hb) as [Hb'|]; [|done].
    exfalso. apply (Hquiet b); [|done]. apply elem_of_timeline.
    exists t. by rewrite <- Horder.
Qed.

Lemma started_exec_request_becomes_pending_witness :
  (forall a, pendingExecRequest (registry Scenario.prompted) <> Defined a) /\
  exists p, pendingExecRequest (registry Scenario.asked) = Defined p /\
            id p = Some "c1" /\ responseOnReject p = Some (JStr "no").
Proof.
  assert (Hnone : forall a, pendingExecRequest (registry Scenario.prompted) <> Defined a).
  { intros a. vm_compute. discriminate. }
  split; [exact Hnone|]. eexists. split.
  - apply (started_exec_request_becomes_pending (Scenario.env NetworkError 1000)
             (Scenario.started "t1" "c1" EXEC_TOOL (JObj [("response_on_reject", JStr "no")]))
             (Scenario.descriptor "c1" EXEC_TOOL (JObj [("response_on_reject", JStr "no")]))
             (ToolCall.mk "c1" EXEC_TOOL (Some (JObj [("response_on_reject", JStr "no")])))
             Scenario.prompted
             (mkRun "t1" "sort this array" (actions_of (registry Scenario.prompted) "t1"))
             eq_refl eq_refl eq_refl eq_refl eq_refl).
    + vm_compute. apply list_elem_of_here.
    + exact Hnone.
  - split; reflexivity.
Defined.

(** X6.  A failed event with a descriptor, for a run the registry knows:
    when no action of the run has the tool-call identifier, the run gains
    at its end one [tool_failed] action with that identifier, status
    failed, the tool name and the event's error; when one has it, the first
    such action is replaced in place by the merged record (its own fields,
    with kind [tool_failed], status failed and the error) and the run keeps
    its length.  This holds for every tool, the execution-request tool
    included. *)
Theorem failed_upserts_tool_failed env event tcj tc s r :
  Ev.event_type event = "progress_update_tool_action_failed" ->
  announced_tool_call event = Some tcj ->
  read_tool_call tcj = Some tc ->
  runs (registry s) !! Ev.task_id event = Some r ->
  let o := run env (handleWSMessage event) s in
  let after := actions_of (registry (final o)) (Ev.task_id event) in
  threw o = false /\
  (Forall (fun a => id a <> Some (ToolCall.id tc)) (actions r) ->
   exists c,
     after = actions r ++ [c] /\
     id c = Some (ToolCall.id tc) /\ kind c = Some tool_failed /\
     status c = failed /\ toolName c = Some (ToolCall.name tc) /\
     error c = Ev.error event) /\
  ((exists a, a ∈ actions r /\ id a = Some (ToolCall.id tc)) ->
   exists i a c,
     find_index (Some (ToolCall.id tc)) (actions r) = Some i /\
     actions r !! i = Some a /\
     after = <[i := c]> (actions r) /\
     length after = length (actions r) /\
     id c = Some (ToolCall.id tc) /\ kind c = Some tool_failed /\
     status c = failed /\ error c = Ev.error event /\
     toolName c = toolName a /\ arguments c = arguments a /\
     responseOnReject c = responseOnReject a /\ result c = result a /\
     timestamp c = timestamp a).
Proof.
  intros Htype Hdesc Hread Hr o after. unfold announced_tool_call in Hdesc.
  assert (Hrun : threw o = false /\
            after = upsert (Some (ToolCall.id tc)) (failedUpdater event tc) (actions r)).
  { subst after o. unfold handleWSMessage. rewrite Htype. cbn.
    rewrite Hdesc, (read_tool_call_truthy _ _ Hread). cbn. rewrite Hread. cbn.
    split; [done|]. by apply actions_of_updateAction. }
  destruct Hrun as [Hthrew Hafter]. split; [done|]. split.
  - intros Habs. eexists. split; [by rewrite Hafter, (upsert_absent _ _ _ Habs)|done].
  - intros (a0 & Hin & Hid).
    destruct (exists_find_index _ _ _ Hin Hid) as [i Hi].
    destruct (find_index_Some _ _ _ Hi) as (a & Ha & Hida & _).
    destruct (upsert_present (Some (ToolCall.id tc)) (failedUpdater event tc) _ _ Hi)
      as [Hup Hlen].
    exists i, a, (failedUpdater event tc (Some a)).
    split; [done|]. split; [done|]. split; [by rewrite Hafter, Hup, Ha|].
    split; [by rewrite Hafter|]. done.
Qed.

Lemma failed_upserts_tool_failed_witness :
  let event := Ev.mk "progress_update_tool_action_failed" "t1" "2025-06-01T12:00:02.000Z"
                 (Some (JObj [("args", JArr [Scenario.descriptor "c1" "think" (JObj [])])]))
                 (Some "timeout") in
  let o := run (Scenario.env NetworkError 1001) (handleWSMessage event) Scenario.thinking in
  exists c,
    actions_of (registry (final o)) "t1" =
      <[1%nat := c]> (actions_of (registry Scenario.thinking) "t1") /\
    kind c = Some tool_failed /\ status c = failed /\ error c = Some "timeout" /\
    toolName c = Some "think".
Proof.
  destruct (failed_upserts_tool_failed (Scenario.env NetworkError 1001)
              (Ev.mk "progress_update_tool_action_failed" "t1" "2025-06-01T12:00:02.000Z"
                 (Some (JObj [("args", JArr [Scenario.descriptor "c1" "think" (JObj [])])]))
                 (Some "timeout"))
              (Scenario.descriptor "c1" "think" (JObj []))
              (ToolCall.mk "c1" "think" (Some (JObj [])))
              Scenario.thinking
              (mkRun "t1" "sort this array" (actions_of (registry Scenario.thinking) "t1"))
              eq_refl eq_refl eq_refl eq_refl) as (_ & _ & Hpresent).
  destruct Hpresent
    as (i & a & c & Hi & Ha & Hafter & _ & _ & Hkind & Hst & Herr & Hname & _).
  - eexists. split; [apply list_elem_of_lookup; exists 1%nat; reflexivity|reflexivity].
  - injection Hi as <-. injection Ha as <-.
    exists c. split; [exact Hafter|]. split; [exact Hkind|]. split; [exact Hst|].
    split; [exact Herr|exact Hname].
Defined.

(** X7.  A failed event whose identifier denotes, in its run, the slot of
    the only running execution request of the registry leaves no execution
    request pending: unlike a completed event, a failed event for the
    execution-request tool is not suppressed. *)
Theorem failed_event_ends_pending_request env event tcj tc s r i :
  Ev.event_type event = "progress_update_tool_action_failed" ->
  announced_tool_call event = Some tcj ->
  read_tool_call tcj = Some tc ->
  runs (registry s) !! Ev.task_id event = Some r ->
  find_index (Some (ToolCall.id tc)) (actions r) = Some i ->
  (forall t j a, actions_of (registry s) t !! j = Some a ->
     running_exec_request a -> t = Ev.task_id event /\ j = i) ->
  let o := run env (handleWSMessage event) s in
  forall a, pendingExecRequest (registry (final o)) <> Defined a.
Proof.
  intros Htype Hdesc Hread Hr Hi Honly o. unfold announced_tool_call in Hdesc.
  assert (Hfinal : registry (final o) =
            updateAction (Ev.task_id event) (Some (ToolCall.id tc))
              (failedUpdater event tc) (registry s)).
  { subst o. unfold handleWSMessage. rewrite Htype. cbn.
    rewrite Hdesc, (read_tool_call_truthy _ _ Hread). cbn. by rewrite Hread. }
  apply nothing_pending. intros t _. rewrite Hfinal.
  apply Forall_lookup. intros j x Hx Hrun.
  destruct (decide (Ev.task_id event = t)) as [<-|Hne].
  - rewrite (actions_of_updateAction _ _ _ _ _ Hr) in Hx.
    destruct (upsert_present (Some (ToolCall.id tc)) (failedUpdater event tc) _ _ Hi)
      as [Hup _].
    rewrite Hup in Hx. apply list_lookup_insert_Some in Hx as [(<- & <- & _)|[Hne Hx]].
    + by destruct Hrun.
    + assert (Hx' : actions_of (registry s) (Ev.task_id event) !! j = Some x)
        by (unfold actions_of; by rewrite Hr).
      destruct (Honly _ _ _ Hx' Hrun) as [_ ->]. done.
  - rewrite (actions_of_updateAction_other _ _ _ _ _ Hne) in Hx.
    destruct (Honly _ _ _ Hx Hrun) as [-> _]. done.
Qed.

Lemma failed_event_ends_pending_request_witness :
  let event := Ev.mk "progress_update_tool_action_failed" "t1" "2025-06-01T12:00:02.000Z"
                 (Some (JObj [("args", JArr [Scenario.descriptor "c1" EXEC_TOOL (JObj [])])]))
                 (Some "timeout") in
  let o := run (Scenario.env NetworkError 1001) (handleWSMessage event) Scenario.asked in
  (exists p, pendingExecRequest (registry Scenario.asked) = Defined p) /\
  forall a, pendingExecRequest (registry (final o)) <> Defined a.
Proof.
  split; [eexists; vm_compute; reflexivity|].
  apply (failed_event_ends_pending_request (Scenario.env NetworkError 1001)
           (Ev.mk "progress_update_tool_action_failed" "t1" "2025-06-01T12:00:02.000Z"
              (Some (JObj [("args", JArr [Scenario.descriptor "c1" EXEC_TOOL (JObj [])])]))
              (Some "timeout"))
           (Scenario.descriptor "c1" EXEC_TOOL (JObj []))
           (ToolCall.mk "c1" EXEC_TOOL (Some (JObj [])))
           Scenario.asked
           (mkRun "t1" "sort this array" (actions_of (registry Scenario.asked) "t1"))
           1%nat eq_refl eq_refl eq_refl eq_refl eq_refl).
  intros t j a Hj Hrun. unfold actions_of in Hj.
  destruct (decide (t = "t1")) as [->|Hne].
  - split; [done|]. destruct j as [|[|j]].
    + vm_compute in Hj. injection Hj as <-. destruct Hrun as [Hk _]. discriminate Hk.
    + done.
    + vm_compute in Hj. discriminate Hj.
  - assert (Hnone : runs (registry Scenario.asked) !! t = None).
    { change (runs (registry Scenario.asked))
        with (<["t1" := mkRun "t1" "sort this array"
                          (actions_of (registry Scenario.asked) "t1")]> (∅ : gmap string Run)).
      rewrite lookup_insert_ne; [apply lookup_empty|done]. }
    rewrite Hnone in Hj. discriminate Hj.
Defined.

(** ** Events that end a run *)

(** X8.  A [run_cancelled] event: the registry it leaves is the one it
    found after one [addAction] of a [system_notice] with status done,
    message "Task was cancelled." and identifier [cancel_] followed by the
    clock reading; a known run gains exactly that action at its end;
    [loading] and [cancelling] are false and [currentTaskId] is null
    afterwards. *)
Theorem run_cancelled_inserts_notice env event s :
  Ev.event_type event = "run_cancelled" ->
  let o := run env (handleWSMessage event) s in
  let a := noticeAction "cancel_" (now env) (JStr "Task was cancelled.")
             (Ev.timestamp event) in
  (id a = Some ("cancel_" +:+ pretty (now env)) /\ kind a = Some system_notice /\
   status a = done /\ message a = Some (JStr "Task was cancelled.")) /\
  registry (final o) = addAction (Ev.task_id event) a (registry s) /\
  (forall r, runs (registry s) !! Ev.task_id event = Some r ->
     actions_of (registry (final o)) (Ev.task_id event) = actions r ++ [a]) /\
  loading (final o) = false /\ cancelling (final o) = false /\
  currentTaskId (final o) = None /\ threw o = false.
Proof.
  intros Htype. unfold handleWSMessage. rewrite Htype. cbn.
  split_and!; try done.
  intros r Hr. by apply actions_of_addAction.
Qed.

Lemma run_cancelled_inserts_notice_witness :
  let event := Scenario.plain "run_cancelled" "t1" None in
  let s := setCancelling true Scenario.asked in
  let o := run (Scenario.env NetworkError 1500) (handleWSMessage event) s in
  cancelling s = true /\ cancelling (final o) = false /\ loading (final o) = false /\
  currentTaskId (final o) = None.
Proof.
  destruct (run_cancelled_inserts_notice (Scenario.env NetworkError 1500)
              (Scenario.plain "run_cancelled" "t1" None)
              (setCancelling true Scenario.asked) eq_refl)
    as (_ & _ & _ & Hload & Hcanc & Htask & _).
  split; [reflexivity|]. split; [exact Hcanc|]. split; [exact Hload|exact Htask].
Defined.

(** What an event that ends a run does to the registry and the flags. *)
Lemma terminal_registry env event s :
  terminal event ->
  let o := run env (handleWSMessage event) s in
  exists a,
    registry (final o) = addAction (Ev.task_id event) a (registry s) /\
    ~ running_exec_request a /\ status a = done /\
    loading (final o) = false /\ currentTaskId (final o) = None.
Proof.
  intros [Ht|[Ht|Ht]]; unfold handleWSMessage; rewrite Ht; cbn;
    eexists; (split; [reflexivity|]); (split; [by intros [? _]|]); done.
Qed.

Lemma last_such_app l1 l2 :
  last_such running_exec_request (l1 ++ l2) =
  match last_such running_exec_request l2 with
  | Some b => Some b
  | None => last_such running_exec_request l1
  end.
Proof.
  induction l1 as [|x l1 IH]; simpl.
  - by destruct (last_such _ l2).
  - rewrite IH. by destruct (last_such _ l2).
Qed.

(** Appending to a run an action that is no running execution request
    does not change the latest running execution request. *)
Lemma last_such_addAction tid a reg :
  ~ running_exec_request a ->
  last_such running_exec_request (timelineActions (addAction tid a reg)) =
  last_such running_exec_request (timelineActions reg).
Proof.
  intros Ha. unfold timelineActions. rewrite runOrder_addAction.
  induction (runOrder reg) as [|t l IH]; simpl; [done|].
  rewrite !last_such_app, IH.
  destruct (last_such running_exec_request (flat_map (actions_of reg) l)); [done|].
  destruct (decide (tid = t)) as [<-|Hne].
  - destruct (runs reg !! tid) as [r|] eqn:Hr.
    + rewrite (actions_of_addAction _ _ _ _ Hr). unfold actions_of. rewrite Hr.
      rewrite last_such_app. simpl. by rewrite decide_False.
    + by rewrite (actions_of_addAction_unknown _ _ _ Hr).
  - by rewrite (actions_of_addAction_other _ _ _ _ Hne).
Qed.

Lemma actions_of_addAction_prefix tid a reg t :
  actions_of reg t `prefix_of` actions_of (addAction tid a reg) t.
Proof.
  destruct (decide (tid = t)) as [<-|Hne].
  - destruct (runs reg !! tid) as [r|] eqn:Hr.
    + rewrite (actions_of_addAction _ _ _ _ Hr). unfold actions_of. rewrite Hr.
      by apply prefix_app_r.
    + by rewrite (actions_of_addAction_unknown _ _ _ Hr).
  - by rewrite (actions_of_addAction_other _ _ _ _ Hne).
Qed.

(** X9.  An [agent_output], [run_cancelled] or [run_failed] event changes
    no action that exists: every run keeps its actions, as they are, at the
    front.  In particular the execution request that was pending before is
    the one pending after: a request still running when its run ends stays
    on offer. *)
Theorem terminal_event_keeps_actions env event s :
  terminal event ->
  let o := run env (handleWSMessage event) s in
  (forall t, actions_of (registry s) t `prefix_of` actions_of (registry (final o)) t) /\
  (forall p, pendingExecRequest (registry s) = Defined p <->
             pendingExecRequest (registry (final o)) = Defined p).
Proof.
  intros Hterm o.
  destruct (terminal_registry env event s Hterm) as (a & Hreg & Ha & _).
  fold o in Hreg. rewrite Hreg. split.
  - intros t. apply actions_of_addAction_prefix.
  - intros p.
    pose proof (last_such_addAction (Ev.task_id event) a (registry s) Ha) as Hls.
    rewrite !pending_is_last_such, Hls.
    remember (timelineActions (registry s)) as tl eqn:Htl.
    remember (timelineActions (addAction (Ev.task_id event) a (registry s)))
      as tl' eqn:Htl'.
    destruct tl as [|x tl], tl' as [|x' tl'].
    + done.
    + simpl. split; discriminate.
    + rewrite <- Hls. simpl. split; discriminate.
    + reflexivity.
Qed.

Lemma terminal_event_keeps_actions_witness :
  let s := Scenario.asked in
  let o := run (Scenario.env NetworkError 1500)
             (handleWSMessage (Scenario.plain "run_cancelled" "t1" None)) s in
  terminal (Scenario.plain "run_cancelled" "t1" None) /\
  exists p, pendingExecRequest (registry s) = Defined p /\ id p = Some "c1" /\
            pendingExecRequest (registry (final o)) = Defined p /\
            currentTaskId (final o) = None.
Proof.
  assert (Hterm : terminal (Scenario.plain "run_cancelled" "t1" None))
    by (right; left; reflexivity).
  split; [exact Hterm|].
  destruct (terminal_event_keeps_actions (Scenario.env NetworkError 1500)
              (Scenario.plain "run_cancelled" "t1" None) Scenario.asked Hterm)
    as [_ Hpending].
  eexists. split; [vm_compute; reflexivity|]. split; [reflexivity|].
  split; [|reflexivity]. apply Hpending. vm_compute. reflexivity.
Defined.

Lemma timeline_addAction_incl tid a reg x :
  x ∈ timelineActions reg -> x ∈ timelineActions (addAction tid a reg).
Proof.
  rewrite !elem_of_timeline, runOrder_addAction. intros (t & Ht & Hx).
  exists t. split; [done|].
  by eapply elem_of_prefix; [|apply actions_of_addAction_prefix].
Qed.

Lemma timelinePlaceholder_addAction tid a reg :
  timelinePlaceholder reg = false -> timelinePlaceholder (addAction tid a reg) = false.
Proof.
  unfold timelinePlaceholder. rewrite runOrder_addAction.
  set (k := default "undefined" (head (runOrder reg))).
  destruct (runs reg !! k) as [r|] eqn:Hr; [|done].
  intros Hlen%bool_decide_eq_false.
  pose proof (actions_of_addAction_prefix tid a reg k) as Hpre.
  unfold actions_of in Hpre. rewrite Hr in Hpre.
  destruct (runs (addAction tid a reg) !! k) as [r'|] eqn:Hr'.
  - apply bool_decide_eq_false. apply prefix_length in Hpre. lia.
  - exfalso. unfold addAction in Hr'. destruct (runs reg !! tid) eqn:Ht.
    + cbn in Hr'. destruct (decide (tid = k)) as [->|Hne].
      * by rewrite lookup_insert_eq in Hr'.
      * rewrite lookup_insert_ne in Hr'; congruence.
    + congruence.
Qed.

(** X10.  When the timeline is on display and holds an action whose status
    is running, the "Thinking..." line is still rendered after an
    [agent_output], [run_cancelled] or [run_failed] event, although
    [loading] is then false: ending a run settles none of its running
    actions. *)
Theorem thinking_line_survives_run_end env event s a :
  terminal event ->
  timelinePlaceholder (registry s) = false ->
  a ∈ timelineActions (registry s) -> status a = running ->
  let o := run env (handleWSMessage event) s in
  loading (final o) = false /\ thinkingShown (final o) = true.
Proof.
  intros Hterm Hshown Hin Hrun o.
  destruct (terminal_registry env event s Hterm) as (x & Hreg & _ & _ & Hload & _).
  fold o in Hreg, Hload. split; [done|].
  unfold thinkingShown. rewrite Hreg, Hload.
  rewrite (timelinePlaceholder_addAction _ _ _ Hshown). cbn.
  apply existsb_exists. exists a. split.
  - apply list_elem_of_In. by apply timeline_addAction_incl.
  - by apply bool_decide_eq_true.
Qed.

Lemma thinking_line_survives_run_end_witness :
  let event := Scenario.plain "run_cancelled" "t1" None in
  let o := run (Scenario.env NetworkError 1500) (handleWSMessage event) Scenario.thinking in
  terminal event /\ timelinePlaceholder (registry Scenario.thinking) = false /\
  loading (final o) = false /\ thinkingShown (final o) = true.
Proof.
  assert (Hterm : terminal (Scenario.plain "run_cancelled" "t1" None))
    by (right; left; reflexivity).
  split; [exact Hterm|]. split; [reflexivity|].
  apply (thinking_line_survives_run_end (Scenario.env NetworkError 1500)
           (Scenario.plain "run_cancelled" "t1" None) Scenario.thinking
           (startAction (Scenario.started "t1" "c1" "think" (JObj []))
              (ToolCall.mk "c1" "think" (Some (JObj [])))) Hterm eq_refl).
  - apply list_elem_of_lookup. exists 1%nat. reflexivity.
  - reflexivity.
Defined.

(** X11.  An [agent_output] event leaves [cancelling] as it was.  So when a
    cancel request was accepted and the run then ends with its answer, the
    flag stays set: after the next prompt is acknowledged the cancel button
    is on display, but [handleCancelTask] does nothing and sends nothing. *)
Theorem answer_after_cancel_disables_cancel
    envc enva envt envp userId event text payload body tid' s :
  no_task (currentTaskId s) = false -> cancelling s = false ->
  (forall r, reply envc r = Response true payload) ->
  Ev.event_type event = "agent_output" ->
  blank text = false ->
  (forall r, reply envp r = Response true (Some body)) ->
  prop "task_id" body = Some (JStr tid') -> tid' <> "" ->
  let s1 := step envc userId CancelTask s in
  let s2 := step enva userId (Message event) s1 in
  let s3 := step envt userId (Typed text) s2 in
  let s4 := step envp userId SendMessage s3 in
  (cancelling s1 = true /\ cancelling s2 = cancelling s1) /\
  (currentTaskId s4 = Some tid' /\ cancelling s4 = true /\ cancelShown s4 = true) /\
  forall envx,
    final (run envx (handleCancelTask userId s4) s4) = s4 /\
    sent (run envx (handleCancelTask userId s4) s4) = [].
Proof.
  intros Htask Hcanc Hok Htype Htext Henq Hbody Hne s1 s2 s3 s4.
  assert (H1 : s1 = setCancelling true s).
  { subst s1. unfold step, handler, handleCancelTask, cancelCurrentTask.
    rewrite Htask, Hcanc. cbn. by rewrite Hok. }
  assert (H2 : s2 = setCurrentTaskId None (setLoading false
                 (setRuns (addAction (Ev.task_id event) (answerAction event (now enva))) s1))).
  { subst s2. unfold step, handler, handleWSMessage. rewrite Htype. by cbn. }
  assert (H3 : s3 = setInput text s2).
  { subst s3. unfold step, handler. rewrite H2. by cbn. }
  assert (H4 : cancelling s4 = true /\ currentTaskId s4 = Some tid' /\ loading s4 = true).
  { assert (Hin3 : input s3 = text) by by rewrite H3.
    assert (Hl3 : loading s3 = false) by by rewrite H3, H2.
    assert (Hc3 : cancelling s3 = true) by by rewrite H3, H2, H1.
    clearbody s3. subst s4. unfold step, handler, handleSendMessage, sendPrompt.
    rewrite Hin3, Hl3, Htext. cbn. rewrite Henq. cbn. rewrite Hbody. by cbn. }
  destruct H4 as (Hc4 & Ht4 & Hl4). apply String.eqb_neq in Hne.
  split; [by rewrite H2, H1|]. split.
  - split; [done|]. split; [done|]. unfold cancelShown. rewrite Hl4, Ht4. cbn. by rewrite Hne.
  - intros envx. unfold handleCancelTask. rewrite Hc4, andb_false_r. done.
Qed.

Lemma answer_after_cancel_disables_cancel_witness :
  let s4 := step (Scenario.env (Scenario.enqueued "t2") 2001) "u" SendMessage
              (step (Scenario.env NetworkError 2000) "u" (Typed "again")
                 (step (Scenario.env NetworkError 1500) "u"
                    (Message (Scenario.plain "agent_output" "t1" (Some (JStr "Sorted."))))
                    (step (Scenario.env (Response true None) 1200) "u" CancelTask
                       Scenario.prompted))) in
  currentTaskId s4 = Some "t2" /\ cancelling s4 = true /\ cancelShown s4 = true /\
  final (run (Scenario.env (Response true None) 2500) (handleCancelTask "u" s4) s4) = s4.
Proof.
  destruct (answer_after_cancel_disables_cancel
              (Scenario.env (Response true None) 1200)
              (Scenario.env NetworkError 1500)
              (Scenario.env NetworkError 2000)
              (Scenario.env (Scenario.enqueued "t2") 2001)
              "u" (Scenario.plain "agent_output" "t1" (Some (JStr "Sorted.")))
              "again" None (JObj [("task_id", JStr "t2")]) "t2" Scenario.prompted
              eq_refl eq_refl (fun _ => eq_refl) eq_refl eq_refl (fun _ => eq_refl)
              eq_refl ltac:(discriminate))
    as (_ & (Ht & Hc & Hshown) & Hdead).
  split; [exact Ht|]. split; [exact Hc|]. split; [exact Hshown|].
  exact (proj1 (Hdead (Scenario.env (Response true None) 2500))).
Defined.

(** ** Proposed code *)

(** X12.  Among the events of the declared shape, the proposed code
    changes only through a completed event of the [edit_code] tool whose
    output carries a truthy [new_code], and then it becomes that value: no
    other event, no other tool and no empty [new_code] proposes anything. *)
Theorem proposal_only_from_edit_code env event s :
  declared_shape event ->
  let o := run env (handleWSMessage event) s in
  proposedCode (final o) <> proposedCode s ->
  Ev.event_type event = "progress_update_tool_action_completed" /\
  exists tcj tc,
    completed_tool_call event = Some tcj /\ read_tool_call tcj = Some tc /\
    ToolCall.name tc = "edit_code" /\
    truthy (opt_prop "new_code" (completed_output event)) = true /\
    proposedCode (final o) = opt_prop "new_code" (completed_output event).
Proof.
  intros _. unfold completed_tool_call, completed_output, handleWSMessage. cbn.
  repeat case_match; cbn; intros Hneq; try congruence.
  all: repeat match goal with
       | H : (_ && _) = true |- _ => apply andb_true_iff in H as [? ?]
       | H : String.eqb _ _ = true |- _ => apply String.eqb_eq in H
       end.
  all: split; [done|].
  all: destruct (opt_prop "tool_call" _) as [tcj|] eqn:Htc; [|done].
  all: cbn in *; eexists tcj, _; split_and!; eauto.
Qed.

Lemma proposal_only_from_edit_code_witness :
  let event := Scenario.completed "t1" "c5" "edit_code"
                 (JObj [("new_code", JStr "let x = 1;")]) in
  let o := run (Scenario.env NetworkError 1001) (handleWSMessage event) Scenario.prompted in
  proposedCode Scenario.prompted = None /\
  proposedCode (final o) = Some (JStr "let x = 1;") /\
  exists tc, ToolCall.name tc = "edit_code" /\
             (completed_tool_call event ≫= read_tool_call) = Some tc.
Proof.
  destruct (proposal_only_from_edit_code (Scenario.env NetworkError 1001)
              (Scenario.completed "t1" "c5" "edit_code"
                 (JObj [("new_code", JStr "let x = 1;")]))
              Scenario.prompted (declared_shape_completed _ _ _ _) ltac:(discriminate))
    as (_ & tcj & tc & Hd & Hr & Hn & _ & Hp).
  split; [reflexivity|]. split; [exact Hp|].
  exists tc. split; [exact Hn|].
  exact (eq_trans (f_equal (fun d => d ≫= read_tool_call) Hd) Hr).
Defined.

(** X13.  After a completed [edit_code] event with a truthy [new_code], the
    proposal is that value while the editor code is untouched, and an
    enqueue request built from that session carries the proposal, not the
    editor code, as its [code]. *)
Theorem proposed_code_is_sent env event tcj tc s v :
  Ev.event_type event = "progress_update_tool_action_completed" ->
  completed_tool_call event = Some tcj ->
  read_tool_call tcj = Some tc ->
  ToolCall.name tc = "edit_code" ->
  opt_prop "new_code" (completed_output event) = Some v ->
  truthy (Some v) = true ->
  let s' := final (run env (handleWSMessage event) s) in
  proposedCode s' = Some v /\ code s' = code s /\
  (forall userId, prop "code" (body (enqueueRequest userId s')) = Some v) /\
  (forall userId, proposedCode s = None ->
     prop "code" (body (enqueueRequest userId s)) = Some (JStr (code s))).
Proof.
  intros Htype Hdesc Hread Hname Hnew Htruthy s'.
  unfold completed_tool_call, completed_output in *.
  assert (Hs' : proposedCode s' = Some v /\ code s' = code s).
  { subst s'. unfold handleWSMessage. rewrite Htype. cbn.
    rewrite Hdesc, (read_tool_call_truthy _ _ Hread). cbn.
    rewrite Hread, Hname. cbn. rewrite Hnew, Htruthy. cbn.
    destruct (opt_prop "output_data" _) as [[]|]; cbn; done. }
  destruct Hs' as [Hp Hc]. split; [done|]. split; [done|]. split.
  - intros userId. unfold enqueueRequest. rewrite Hp. cbn.
    by destruct v.
  - intros userId Hnone. unfold enqueueRequest. rewrite Hnone. by cbn.
Qed.

Lemma proposed_code_is_sent_witness :
  let event := Scenario.completed "t1" "c5" "edit_code"
                 (JObj [("new_code", JStr "let x = 1;")]) in
  let s' := final (run (Scenario.env NetworkError 1001) (handleWSMessage event)
                     Scenario.prompted) in
  code s' = "code" /\
  prop "code" (body (enqueueRequest "u" s')) = Some (JStr "let x = 1;") /\
  prop "code" (body (enqueueRequest "u" Scenario.prompted)) = Some (JStr "code").
Proof.
  destruct (proposed_code_is_sent (Scenario.env NetworkError 1001)
              (Scenario.completed "t1" "c5" "edit_code"
                 (JObj [("new_code", JStr "let x = 1;")]))
              (Scenario.descriptor "c5" "edit_code" (JObj []))
              (ToolCall.mk "c5" "edit_code" (Some (JObj [])))
              Scenario.prompted (JStr "let x = 1;")
              eq_refl eq_refl eq_refl eq_refl eq_refl eq_refl)
    as (_ & Hcode & Hsent & Hplain).
  split; [exact Hcode|]. split; [exact (Hsent "u")|exact (Hplain "u" eq_refl)].
Defined.

(** ** Sending a prompt *)

(** X14.  An acknowledged prompt: with non-blank input and an ok response
    whose body names task [tid], [sendPrompt] clears the input, keeps
    [loading] set, makes [tid] the active task and files one
    [user_message] holding the typed text.  For a new [tid] that message
    is the only action of a new run, created with the typed text as its
    prompt and listed last in [runOrder]; for a [tid] the registry already
    knows no run is created and the message joins the end of that run. *)
Theorem sendPrompt_acknowledged env userId s payload tid :
  blank (input s) = false ->
  reply env (enqueueRequest userId s) = Response true payload ->
  payload ≫= prop "task_id" = Some (JStr tid) ->
  let o := run env (sendPrompt userId s) s in
  let u := userAction (now env) (input s) (iso env) in
  (kind u = Some user_message /\ status u = done /\
   content u = Some (JStr (input s)) /\ id u = Some ("user_" +:+ pretty (now env))) /\
  (threw o = false /\ input (final o) = "" /\ loading (final o) = true /\
   currentTaskId (final o) = Some tid /\ cancelling (final o) = cancelling s) /\
  (runs (registry s) !! tid = None ->
   runs (registry (final o)) !! tid = Some (mkRun tid (input s) [u]) /\
   runOrder (registry (final o)) = runOrder (registry s) ++ [tid] /\
   forall t, t <> tid -> runs (registry (final o)) !! t = runs (registry s) !! t) /\
  (forall r, runs (registry s) !! tid = Some r ->
   runs (registry (final o)) !! tid = Some (mkRun (taskId r) (prompt r) (actions r ++ [u])) /\
   runOrder (registry (final o)) = runOrder (registry s)).
Proof.
  intros Hin Hres Hbody o u.
  assert (Hfinal : threw o = false /\
            final o = setRuns (addAction tid u)
                        (setCurrentTaskId (Some tid)
                           (setRuns (createRun tid (input s))
                              (setInput "" (setLoading true s))))).
  { subst o. unfold sendPrompt. rewrite Hin. cbn. rewrite Hres. cbn.
    rewrite Hbody. by cbn. }
  destruct Hfinal as [Hthrew Hfinal]. split; [done|]. split.
  { rewrite Hfinal. by cbn. }
  split.
  - intros Hnew. rewrite Hfinal. cbn. unfold createRun. rewrite Hnew.
    unfold addAction. cbn. rewrite lookup_insert_eq. cbn.
    rewrite lookup_insert_eq. split; [done|]. split; [done|].
    intros t Ht. by rewrite !lookup_insert_ne.
  - intros r Hr. rewrite Hfinal. cbn. unfold createRun. rewrite Hr.
    unfold addAction. rewrite Hr. cbn. by rewrite lookup_insert_eq.
Qed.

Lemma sendPrompt_acknowledged_witness :
  let s := Scenario.typed in
  let env := Scenario.env (Scenario.enqueued "t1") 999 in
  let o := run env (sendPrompt "u" s) s in
  blank (input s) = false /\
  runs (registry (final o)) !! "t1" =
    Some (mkRun "t1" "sort this array"
            [userAction 999 "sort this array" "2025-06-01T12:00:00.000Z"]) /\
  runOrder (registry (final o)) = ["t1"] /\ currentTaskId (final o) = Some "t1".
Proof.
  destruct (sendPrompt_acknowledged (Scenario.env (Scenario.enqueued "t1") 999) "u"
              Scenario.typed (Some (JObj [("task_id", JStr "t1")])) "t1"
              eq_refl eq_refl eq_refl) as (_ & (_ & _ & _ & Htask & _) & Hnew & _).
  destruct (Hnew eq_refl) as (Hrun & Horder & _).
  split; [reflexivity|]. split; [exact Hrun|]. split; [exact Horder|exact Htask].
Defined.

(** X15.  [handleSendMessage] sends a request exactly when the input is not
    blank and the session is not loading, and then it sends one, the
    enqueue of the current input; with blank input or while loading it
    leaves the session as it is. *)
Theorem handleSendMessage_sends_when_ready env userId s :
  let o := run env (handleSendMessage userId s) s in
  (blank (input s) = true \/ loading s = true -> final o = s /\ sent o = []) /\
  (blank (input s) = false /\ loading s = false ->
   map fst (sent o) = [enqueueRequest userId s] /\
   prop "query" (body (enqueueRequest userId s)) = Some (JStr (input s)) /\
   prop "user_id" (body (enqueueRequest userId s)) = Some (JStr userId)) /\
  (sent o = [] <-> blank (input s) = true \/ loading s = true).
Proof.
  intros o.
  assert (Hidle : blank (input s) = true \/ loading s = true ->
                  final o = s /\ sent o = []).
  { subst o. unfold handleSendMessage.
    intros [Hb|Hl]; [rewrite Hb|rewrite Hl, orb_true_r]; done. }
  assert (Hready : blank (input s) = false /\ loading s = false ->
                   map fst (sent o) = [enqueueRequest userId s]).
  { subst o. unfold handleSendMessage, sendPrompt. intros [Hb Hl]. rewrite Hb, Hl. cbn.
    destruct (reply env _) as [[] payload|]; cbn; [|done|done].
    destruct (payload ≫= prop "task_id") as [[]|]; cbn; done. }
  split; [done|]. split; [|split].
  - intros Hr. split; [by apply Hready|]. done.
  - intros Hsent. destruct (blank (input s)) eqn:Hb; [by left|].
    destruct (loading s) eqn:Hl; [by right|].
    specialize (Hready (conj eq_refl eq_refl)). by rewrite Hsent in Hready.
  - intros H. by apply Hidle.
Qed.

Lemma handleSendMessage_sends_when_ready_witness :
  let env := Scenario.env (Scenario.enqueued "t1") 999 in
  map fst (sent (run env (handleSendMessage "u" Scenario.typed) Scenario.typed)) =
    [enqueueRequest "u" Scenario.typed] /\
  final (run env (handleSendMessage "u" Scenario.prompted) Scenario.prompted) =
    Scenario.prompted.
Proof.
  split.
  - destruct (handleSendMessage_sends_when_ready
                (Scenario.env (Scenario.enqueued "t1") 999) "u" Scenario.typed)
      as (_ & Hready & _).
    exact (proj1 (Hready (conj eq_refl eq_refl))).
  - destruct (handleSendMessage_sends_when_ready
                (Scenario.env (Scenario.enqueued "t1") 999) "u" Scenario.prompted)
      as (Hidle & _).
    exact (proj1 (Hidle (or_introl eq_refl))).
Defined.

(** X16.  The message history of an enqueue request is the list of the
    final answers of the timeline, in timeline order, each as an assistant
    message with the answer's content; user messages, thoughts, notices and
    tool actions do not enter it. *)
Theorem message_history_is_final_answers userId s :
  message_history (registry s) =
    map history_message
      (filter (fun a => kind a = Some final_answer) (timelineActions (registry s))) /\
  prop "message_history" (body (enqueueRequest userId s)) =
    Some (JArr (message_history (registry s))) /\
  length (message_history (registry s)) =
    length (filter (fun a => kind a = Some final_answer) (timelineActions (registry s))).
Proof.
  assert (Hhist : message_history (registry s) =
    map history_message
      (filter (fun a => kind a = Some final_answer) (timelineActions (registry s)))).
  { unfold message_history, timelineActions.
    induction (runOrder (registry s)) as [|t l IH]; cbn [flat_map]; [done|].
    rewrite filter_app, map_app, IH. f_equal.
    unfold actions_of. by destruct (runs (registry s) !! t). }
  split; [done|]. split; [done|]. by rewrite Hhist, length_map.
Qed.

(** ** Resolving an execution request, further *)

(** X17.  The two execution buttons send a request exactly when an
    execution request is pending and a non-empty task is active; otherwise
    they leave the session as it is.  The one request goes to
    [/complete_tool], names the active task and the identifier of the
    pending request, and is issued with [executingCode] set; its result is
    the reject text (the stored [responseOnReject], or "Execution
    rejected.") or the output of the code runner, replaced by "Code
    executed successfully (no output)." when that output is empty.  Both
    handlers end with [executingCode] false and no [executionAction],
    whatever the reply. *)
Theorem resolve_sends_when_pending env userId s :
  let rj := run env (handleRejectExecution userId s) s in
  let ac := run env (handleAcceptExecution userId s) s in
  ((forall p, pendingExecRequest (registry s) <> Defined p) \/
   no_task (currentTaskId s) = true ->
   (final rj = s /\ sent rj = []) /\ (final ac = s /\ sent ac = [])) /\
  (forall p tid,
     pendingExecRequest (registry s) = Defined p ->
     currentTaskId s = Some tid -> tid <> "" ->
     let msg := nullish_or (responseOnReject p) (JStr "Execution rejected.") in
     let out := runCurrentCode env (code s) in
     let told := if String.eqb out "" then "Code executed successfully (no output)."
                 else out in
     sent rj = [(completeToolRequest userId tid (id p) msg,
                 setExecutionAction (Some reject) (setExecutingCode true s))] /\
     sent ac = [(completeToolRequest userId tid (id p) (JStr told),
                 setExecutionAction (Some accept) (setExecutingCode true s))] /\
     (prop "task_id" (body (completeToolRequest userId tid (id p) msg)) = Some (JStr tid) /\
      prop "tool_call_id" (body (completeToolRequest userId tid (id p) msg)) = opt_str (id p) /\
      prop "result" (body (completeToolRequest userId tid (id p) msg)) = Some msg) /\
     (executingCode (final rj) = false /\ executionAction (final rj) = None) /\
     (executingCode (final ac) = false /\ executionAction (final ac) = None)).
Proof.
  intros rj ac. split.
  - intros Hidle. subst rj ac. unfold handleRejectExecution, handleAcceptExecution.
    destruct (pendingExecRequest (registry s)) as [| |p] eqn:Hp; try done.
    destruct Hidle as [Hnone|Hno]; [by destruct (Hnone p)|].
    destruct (currentTaskId s) as [tid|]; [|done].
    cbn in Hno. by rewrite Hno.
  - intros p tid Hp Hc Hne msg out told.
    subst rj ac. unfold handleRejectExecution, handleAcceptExecution.
    rewrite Hp, Hc. apply String.eqb_neq in Hne. rewrite Hne. cbn.
    split; [by destruct (reply env _)|]. split; [by destruct (reply env _)|].
    split.
    { unfold completeToolRequest. cbn. by destruct (id p). }
    split; by destruct (reply env _).
Qed.

Lemma resolve_sends_when_pending_witness :
  let env := mkEnv (fun _ => NetworkError) 3000 "2025-06-01T12:05:00.000Z" (fun _ => "") in
  map fst (sent (run env (handleAcceptExecution "u" Scenario.asked) Scenario.asked)) =
    [completeToolRequest "u" "t1" (Some "c1")
       (JStr "Code executed successfully (no output).")] /\
  final (run env (handleAcceptExecution "u" Scenario.prompted) Scenario.prompted) =
    Scenario.prompted.
Proof.
  destruct (resolve_sends_when_pending
              (mkEnv (fun _ => NetworkError) 3000 "2025-06-01T12:05:00.000Z" (fun _ => ""))
              "u" Scenario.asked) as [_ Hbusy].
  destruct (resolve_sends_when_pending
              (mkEnv (fun _ => NetworkError) 3000 "2025-06-01T12:05:00.000Z" (fun _ => ""))
              "u" Scenario.prompted) as [Hidle _].
  split.
  - destruct (Hbusy
                (startAction
                   (Scenario.started "t1" "c1" EXEC_TOOL
                      (JObj [("response_on_reject", JStr "no")]))
                   (ToolCall.mk "c1" EXEC_TOOL
                      (Some (JObj [("response_on_reject", JStr "no")]))))
                "t1" eq_refl eq_refl ltac:(discriminate)) as (_ & Hac & _).
    exact (f_equal (map fst) Hac).
  - refine (proj1 (proj2 (Hidle (or_introl _)))).
    intros p. vm_compute. discriminate.
Defined.

Lemma upsert_lookup aid f (l : list Action) j x :
  upsert aid f l !! j = Some x ->
  (exists prev, x = f prev) \/ (l !! j = Some x /\ find_index aid l <> Some j).
Proof.
  unfold upsert. destruct (find_index aid l) as [i|] eqn:Hi.
  - intros [(<- & <- & _)|[Hne Hx]]%list_lookup_insert_Some; [left; eauto|].
    right. split; [done|]. congruence.
  - intros [Hx|[Hlen Hx]]%lookup_app_Some; [by right|].
    left. exists None. destruct (j - length l)%nat; [by injection Hx|done].
Qed.

Lemma find_index_ids (l k : list Action) aid :
  id <$> l = id <$> k -> find_index aid l = find_index aid k.
Proof.
  revert k. induction l as [|x l IH]; intros [|y k]; simpl; try done.
  intros [= Hxy Hlk]. rewrite Hxy, (IH k Hlk). done.
Qed.

Lemma upsert_present_ids aid f (l : list Action) i :
  find_index aid l = Some i ->
  (forall a, id a = aid -> id (f (Some a)) = aid) ->
  id <$> upsert aid f l = id <$> l.
Proof.
  intros Hi Hf. unfold upsert. rewrite Hi.
  destruct (find_index_Some _ _ _ Hi) as (a & Ha & Hid & _).
  rewrite list_fmap_insert, Ha, (Hf a Hid).
  apply list_insert_id. by rewrite list_lookup_fmap, Ha, <- Hid.
Qed.

Lemma statusUpdater_id st a : id (statusUpdater st (Some a)) = id a.
Proof. done. Qed.

(** The slot [i] of the identifier of [p] is still the slot of that
    identifier after an upsert keyed by another action's own identifier. *)
Lemma find_index_upsert_const aid (c : Action) (l : list Action) i :
  find_index aid l = Some i ->
  find_index aid (upsert (id c) (fun _ => c) l) = Some i.
Proof.
  intros Hi. unfold upsert. destruct (find_index (id c) l) as [k|] eqn:Hk.
  - rewrite <- Hi. apply find_index_ids.
    destruct (find_index_Some _ _ _ Hk) as (a & Ha & Hid & _).
    rewrite list_fmap_insert. apply list_insert_id.
    by rewrite list_lookup_fmap, Ha, <- Hid.
  - by apply find_index_app_l.
Qed.

(** X18.  When the pending execution request is the only running one of
    the registry and its identifier denotes its own slot in the run of the
    active task, then after a reject and after an accept, whatever the
    reply and whatever the clock, no execution request is pending: the
    prompt with the two buttons goes away. *)
Theorem resolved_request_is_no_longer_pending env userId s p tid r i :
  pendingExecRequest (registry s) = Defined p ->
  currentTaskId s = Some tid -> tid <> "" ->
  runs (registry s) !! tid = Some r ->
  find_index (id p) (actions r) = Some i ->
  (forall t j a, actions_of (registry s) t !! j = Some a ->
     running_exec_request a -> t = tid /\ j = i) ->
  (forall a, pendingExecRequest
               (registry (final (run env (handleRejectExecution userId s) s)))
             <> Defined a) /\
  (forall a, pendingExecRequest
               (registry (final (run env (handleAcceptExecution userId s) s)))
             <> Defined a).
Proof.
  intros Hp Hc Hne Hr Hi Honly.
  assert (Hown : forall j x, actions r !! j = Some x -> running_exec_request x -> j = i).
  { intros j x Hx Hrun. apply (Honly tid j x); [|done]. unfold actions_of. by rewrite Hr. }
  split.
  - destruct (reject_registry env userId s p tid Hp Hc Hne) as (_ & _ & Hfinal).
    rewrite Hfinal. cbn [registry setExecutionAction setExecutingCode setRuns].
    apply nothing_pending. intros t _.
    apply Forall_lookup. intros j x Hx Hrun.
    destruct (decide (tid = t)) as [<-|Hnt].
    + rewrite (actions_of_updateAction _ _ _ _ _ (runs_updateAction _ _ _ _ _ Hr)) in Hx.
      cbn [actions with_actions] in Hx. apply upsert_lookup in Hx as [[prev ->]|[Hx _]].
      { by destruct Hrun. }
      apply upsert_lookup in Hx as [[prev ->]|[Hx Hj]].
      { destruct Hrun as [_ Hst]. by destruct prev. }
      rewrite (Hown j x Hx Hrun) in Hj. by rewrite Hi in Hj.
    + rewrite !(actions_of_updateAction_other _ _ _ _ _ Hnt) in Hx.
      destruct (Honly _ _ _ Hx Hrun) as [-> _]. done.
  - destruct (accept_registry env userId s p tid Hp Hc Hne) as (_ & Hfinal).
    rewrite Hfinal. cbn [registry setExecutionAction setExecutingCode setRuns].
    apply nothing_pending. intros t _.
    apply Forall_lookup. intros j x Hx Hrun.
    destruct (decide (tid = t)) as [<-|Hnt].
    + rewrite (actions_of_updateAction _ _ _ _ _ (runs_updateAction _ _ _ _ _ Hr)) in Hx.
      cbn [actions with_actions] in Hx. apply upsert_lookup in Hx as [[prev ->]|[Hx Hj]].
      { destruct Hrun as [_ Hst]. by destruct prev. }
      rewrite (find_index_upsert_const (id p) _ _ _ Hi) in Hj.
      apply upsert_lookup in Hx as [[prev ->]|[Hx _]].
      { by destruct Hrun. }
      by rewrite (Hown j x Hx Hrun) in Hj.
    + rewrite !(actions_of_updateAction_other _ _ _ _ _ Hnt) in Hx.
      destruct (Honly _ _ _ Hx Hrun) as [-> _]. done.
Qed.

Lemma resolved_request_is_no_longer_pending_witness :
  let env := mkEnv (fun _ => NetworkError) 3000 "2025-06-01T12:05:00.000Z" (fun _ => "42") in
  (exists p, pendingExecRequest (registry Scenario.asked) = Defined p) /\
  (forall a, pendingExecRequest
               (registry (final (run env (handleRejectExecution "u" Scenario.asked)
                                   Scenario.asked))) <> Defined a) /\
  (forall a, pendingExecRequest
               (registry (final (run env (handleAcceptExecution "u" Scenario.asked)
                                   Scenario.asked))) <> Defined a).
Proof.
  split; [eexists; vm_compute; reflexivity|].
  apply (resolved_request_is_no_longer_pending
           (mkEnv (fun _ => NetworkError) 3000 "2025-06-01T12:05:00.000Z" (fun _ => "42"))
           "u" Scenario.asked
           (startAction
              (Scenario.started "t1" "c1" EXEC_TOOL (JObj [("response_on_reject", JStr "no")]))
              (ToolCall.mk "c1" EXEC_TOOL (Some (JObj [("response_on_reject", JStr "no")]))))
           "t1"
           (mkRun "t1" "sort this array" (actions_of (registry Scenario.asked) "t1"))
           1%nat eq_refl eq_refl ltac:(discriminate) eq_refl eq_refl).
  intros t j a Hj Hrun. unfold actions_of in Hj.
  destruct (decide (t = "t1")) as [->|Hne].
  - split; [done|]. destruct j as [|[|j]].
    + vm_compute in Hj. injection Hj as <-. destruct Hrun as [Hk _]. discriminate Hk.
    + done.
    + vm_compute in Hj. discriminate Hj.
  - assert (Hnone : runs (registry Scenario.asked) !! t = None).
    { change (runs (registry Scenario.asked))
        with (<["t1" := mkRun "t1" "sort this array"
                          (actions_of (registry Scenario.asked) "t1")]> (∅ : gmap string Run)).
      rewrite lookup_insert_ne; [apply lookup_empty|done]. }
    rewrite Hnone in Hj. discriminate Hj.
Defined.

(** X19.  Rejecting or accepting keeps the identifiers of the active run
    pairwise distinct, whatever the clock reads: the notice and the
    execution result are filed by an upsert keyed by their own identifier,
    so a synthesized identifier that is already in the run replaces the
    action that has it instead of doubling it. *)
Theorem resolve_keeps_identifiers_distinct env userId s p tid r i :
  pendingExecRequest (registry s) = Defined p ->
  currentTaskId s = Some tid -> tid <> "" ->
  runs (registry s) !! tid = Some r ->
  find_index (id p) (actions r) = Some i ->
  NoDup (ids_of (registry s) tid) ->
  NoDup (ids_of (registry (final (run env (handleRejectExecution userId s) s))) tid) /\
  NoDup (ids_of (registry (final (run env (handleAcceptExecution userId s) s))) tid).
Proof.
  intros Hp Hc Hne Hr Hi Hnd. unfold ids_of in *.
  assert (Hl : actions_of (registry s) tid = actions r)
    by (unfold actions_of; by rewrite Hr).
  rewrite Hl in Hnd. split.
  - destruct (reject_registry env userId s p tid Hp Hc Hne) as (_ & _ & ->).
    cbn [registry setExecutionAction setExecutingCode setRuns].
    rewrite (actions_of_updateAction _ _ _ _ _ (runs_updateAction _ _ _ _ _ Hr)).
    cbn [actions with_actions].
    apply upsert_NoDup; [done|].
    rewrite (upsert_present_ids _ _ _ _ Hi); [done|]. by intros a <-.
  - destruct (accept_registry env userId s p tid Hp Hc Hne) as (_ & ->).
    cbn [registry setExecutionAction setExecutingCode setRuns].
    rewrite (actions_of_updateAction _ _ _ _ _ (runs_updateAction _ _ _ _ _ Hr)).
    cbn [actions with_actions].
    rewrite (upsert_present_ids _ _ _ _ (find_index_upsert_const (id p) _ _ _ Hi));
      [|by intros a <-].
    by apply upsert_NoDup.
Qed.

Lemma resolve_keeps_identifiers_distinct_witness :
  let env := mkEnv (fun _ => NetworkError) 999 "2025-06-01T12:05:00.000Z" (fun _ => "42") in
  NoDup (ids_of (registry Scenario.asked) "t1") /\
  NoDup (ids_of (registry (final (run env (handleAcceptExecution "u" Scenario.asked)
                                    Scenario.asked))) "t1").
Proof.
  assert (Hnd : NoDup (ids_of (registry Scenario.asked) "t1")).
  { apply (bool_decide_unpack _). vm_compute. exact I. }
  split; [exact Hnd|].
  exact (proj2 (resolve_keeps_identifiers_distinct
           (mkEnv (fun _ => NetworkError) 999 "2025-06-01T12:05:00.000Z" (fun _ => "42"))
           "u" Scenario.asked
           (startAction
              (Scenario.started "t1" "c1" EXEC_TOOL (JObj [("response_on_reject", JStr "no")]))
              (ToolCall.mk "c1" EXEC_TOOL (Some (JObj [("response_on_reject", JStr "no")]))))
           "t1"
           (mkRun "t1" "sort this array" (actions_of (registry Scenario.asked) "t1"))
           1%nat eq_refl eq_refl ltac:(discriminate) eq_refl eq_refl Hnd)).
Defined.

(** ** Sessions that can be reached *)

Lemma wf_run_grows tid reg reg' :
  run_grows tid reg reg' -> wf_registry reg -> wf_registry reg'.
Proof.
  intros (Ho & Hother & Hrun) (Hnd & Hdom & Hid).
  assert (Hsome : forall t, is_Some (runs reg' !! t) <-> is_Some (runs reg !! t)).
  { intros t. destruct (decide (t = tid)) as [->|Hne].
    - destruct (runs reg !! tid) as [r|].
      + destruct Hrun as (r' & -> & _). by split; eexists.
      + by rewrite Hrun.
    - by rewrite (Hother t Hne). }
  split_and!.
  - by rewrite Ho.
  - intros t. by rewrite Ho, Hdom, Hsome.
  - intros t r' Hr'. destruct (decide (t = tid)) as [->|Hne].
    + destruct (runs reg !! tid) as [r|] eqn:Hr; [|congruence].
      destruct Hrun as (r'' & Hr'' & Ht & _). rewrite Hr' in Hr''.
      injection Hr'' as <-. rewrite Ht. by apply Hid.
    + rewrite (Hother t Hne) in Hr'. by apply Hid.
Qed.

Lemma nonempty_run_grows tid reg reg' :
  run_grows tid reg reg' ->
  (forall t r, runs reg !! t = Some r -> actions r <> []) ->
  forall t r, runs reg' !! t = Some r -> actions r <> [].
Proof.
  intros (_ & Hother & Hrun) Hne t r' Hr'.
  destruct (decide (t = tid)) as [->|Hnt].
  - destruct (runs reg !! tid) as [r|] eqn:Hr; [|congruence].
    destruct Hrun as (r'' & Hr'' & _ & _ & Hpre). rewrite Hr' in Hr''.
    injection Hr'' as <-. specialize (Hne tid r Hr).
    apply prefix_length in Hpre. rewrite !length_fmap in Hpre.
    destruct (actions r); [done|]. destruct (actions r'); [cbn in Hpre; lia|done].
  - rewrite (Hother t Hnt) in Hr'. by eapply Hne.
Qed.

Lemma known_run_grows tid reg reg' t :
  run_grows tid reg reg' -> is_Some (runs reg !! t) -> is_Some (runs reg' !! t).
Proof.
  intros (_ & Hother & Hrun) Hk. destruct (decide (t = tid)) as [->|Hne].
  - destruct (runs reg !! tid) as [r|]; [|by destruct Hk].
    destruct Hrun as (r' & -> & _). by eexists.
  - by rewrite (Hother t Hne).
Qed.

(** As [updates], for bodies that branch on what an effect returned. *)
Ltac updates_cases tac :=
  cbn;
  lazymatch goal with
  | |- True => exact I
  | |- _ /\ _ => split; [intros ?; tac | updates_cases tac]
  | |- forall _, _ => intros ?; updates_cases tac
  | |- _ => case_match; updates_cases tac
  end.

(** An event either leaves [loading] and the active task alone or clears
    both. *)
Lemma reducer_flags env event s :
  let o := run env (handleWSMessage event) s in
  (loading (final o) = loading s /\ currentTaskId (final o) = currentTaskId s) \/
  (loading (final o) = false /\ currentTaskId (final o) = None).
Proof.
  unfold handleWSMessage. cbn. repeat case_match; cbn; auto.
Qed.

#[local] Instance keeps_task_refl tid : Reflexive (keeps_task tid).
Proof. intros s. unfold keeps_task. split_and!; try done. apply run_grows_refl. Qed.

#[local] Instance keeps_task_trans tid : Transitive (keeps_task tid).
Proof.
  intros s1 s2 s3 (? & ? & H12) (? & ? & H23).
  unfold keeps_task. split_and!; try congruence. by eapply run_grows_trans.
Qed.

Ltac task_step :=
  unfold keeps_task; cbn; split_and!; try done;
  first [ apply run_grows_refl
        | apply run_grows_updateAction; intros ? ?; cbn; congruence ].

Lemma cancelCurrentTask_updates userId s tid :
  every_update (keeps_task tid) (cancelCurrentTask userId s).
Proof.
  unfold cancelCurrentTask. updates_cases ltac:(task_step).
Qed.

Lemma handleRejectExecution_updates userId s tid :
  currentTaskId s = Some tid ->
  every_update (keeps_task tid) (handleRejectExecution userId s).
Proof.
  intros Hc. unfold handleRejectExecution, tryFetch. rewrite Hc.
  updates_cases ltac:(task_step).
Qed.

Lemma handleAcceptExecution_updates userId s tid :
  currentTaskId s = Some tid ->
  every_update (keeps_task tid) (handleAcceptExecution userId s).
Proof.
  intros Hc. unfold handleAcceptExecution, tryFetch. rewrite Hc.
  updates_cases ltac:(task_step).
Qed.

Lemma wf_createRun tid p reg : wf_registry reg -> wf_registry (createRun tid p reg).
Proof.
  intros (Hnd & Hdom & Hid). unfold createRun.
  destruct (runs reg !! tid) as [r|] eqn:Hr; [done|]. split_and!; cbn.
  - apply NoDup_app. split_and!; [done| |apply NoDup_singleton].
    intros t Ht ->%list_elem_of_singleton. apply Hdom in Ht. rewrite Hr in Ht.
    by destruct Ht.
  - intros t. rewrite elem_of_app, list_elem_of_singleton, Hdom.
    destruct (decide (t = tid)) as [->|Hne].
    + rewrite lookup_insert_eq. split; [by eexists|by right].
    + rewrite lookup_insert_ne; [|done]. split; [by intros [?|?]|by left].
  - intros t r. destruct (decide (t = tid)) as [->|Hne].
    + rewrite lookup_insert_eq. by intros [= <-].
    + rewrite lookup_insert_ne; [|done]. apply Hid.
Qed.

Lemma consistent_same_registry s s' :
  registry s' = registry s ->
  currentTaskId s' = None \/
    (currentTaskId s' = currentTaskId s /\ (currentTaskId s <> None -> loading s' = true)) ->
  consistent s -> consistent s'.
Proof.
  intros Hreg Htask (Hwf & Hne & Hact). unfold consistent. rewrite Hreg.
  split; [done|]. split; [done|]. intros t Ht.
  destruct Htask as [Hnone|[Hsame Hload]]; [congruence|].
  rewrite Hsame in Ht. split; [by apply Hact|]. apply Hload. by rewrite Ht.
Qed.

Lemma consistent_keeps_task tid s s' :
  keeps_task tid s s' -> consistent s -> consistent s'.
Proof.
  intros (Hl & Hc & Hgrow) (Hwf & Hne & Hact). split; [|split].
  - by eapply wf_run_grows.
  - by eapply nonempty_run_grows.
  - intros t Ht. rewrite Hc in Ht. destruct (Hact t Ht) as [Hk Hload].
    split; [by eapply known_run_grows|congruence].
Qed.

Lemma consistent_step env userId act s :
  consistent s -> consistent (step env userId act s).
Proof.
  intros Hs. pose proof Hs as (Hwf & Hne & Hact). unfold step.
  destruct act as [text|event| | | |]; unfold handler.
  - destruct (loading s) eqn:Hl; [done|]. cbn.
    apply (consistent_same_registry s); [done| |done]. right. split; [done|].
    cbn. intros Ht. destruct (currentTaskId s) as [t|] eqn:Hc; [|done].
    destruct (Hact t eq_refl) as [_ Hload]. congruence.
  - pose proof (handleWSMessage_frame env event s) as (_ & _ & _ & _ & Hgrow).
    split; [|split].
    + by eapply wf_run_grows.
    + by eapply nonempty_run_grows.
    + intros t Ht.
      destruct (reducer_flags env event s) as [[Hl Hc]|[_ Hc]]; [|congruence].
      rewrite Hc in Ht. destruct (Hact t Ht) as [Hk Hload].
      split; [by eapply known_run_grows|congruence].
  - unfold handleSendMessage.
    destruct (blank (input s)) eqn:Hb; [done|].
    destruct (loading s) eqn:Hl; [done|]. cbn [orb].
    assert (Hnone : currentTaskId s = None).
    { destruct (currentTaskId s) as [t|] eqn:Hc; [|done].
      destruct (Hact t eq_refl) as [_ Hload]. congruence. }
    assert (Hthrown : consistent (setInput "" (setLoading true s))).
    { apply (consistent_same_registry s); [done| |done]. by right. }
    unfold sendPrompt. rewrite Hb. cbn.
    destruct (reply env _) as [[] payload|]; cbn; [| |done].
    + destruct (payload ≫= prop "task_id") as [[| | |tid| |]|]; cbn; try done.
      set (u := userAction _ _ _). set (reg1 := createRun tid (input s) (registry s)).
      assert (Hwf1 : wf_registry reg1) by by apply wf_createRun.
      assert (Hk1 : is_Some (runs reg1 !! tid)).
      { unfold reg1, createRun. destruct (runs (registry s) !! tid) eqn:Hr.
        - rewrite Hr. by eexists.
        - cbn. rewrite lookup_insert_eq. by eexists. }
      split; [|split];
        cbn [registry setRuns setCurrentTaskId setInput setLoading currentTaskId loading];
        fold reg1.
      * eapply wf_run_grows; [apply run_grows_addAction|done].
      * intros t r. unfold addAction. destruct Hk1 as [r1 Hr1]. rewrite Hr1. cbn.
        destruct (decide (t = tid)) as [->|Hnt].
        -- rewrite lookup_insert_eq. intros [= <-]. cbn. by destruct (actions r1).
        -- rewrite lookup_insert_ne; [|done]. unfold reg1, createRun.
           destruct (runs (registry s) !! tid) eqn:Hr; [apply Hne|].
           cbn. rewrite lookup_insert_ne; [|done]. apply Hne.
      * intros t [= <-]. split; [|done].
        eapply known_run_grows; [apply run_grows_addAction|done].
    + apply (consistent_same_registry s); [done| |done]. by left.
  - unfold handleCancelTask. case_match; [|done].
    eapply (consistent_keeps_task ""); [|done].
    apply run_every_update; [apply _..|]. apply cancelCurrentTask_updates.
  - destruct (executingCode s); [done|].
    destruct (currentTaskId s) as [tid|] eqn:Hc.
    + eapply (consistent_keeps_task tid); [|done].
      apply run_every_update; [apply _..|]. by apply handleRejectExecution_updates.
    + unfold handleRejectExecution. rewrite Hc. by destruct (pendingExecRequest _).
  - destruct (executingCode s); [done|].
    destruct (currentTaskId s) as [tid|] eqn:Hc.
    + eapply (consistent_keeps_task tid); [|done].
      apply run_every_update; [apply _..|]. by apply handleAcceptExecution_updates.
    + unfold handleAcceptExecution. rewrite Hc. by destruct (pendingExecRequest _).
Qed.

Lemma reachable_consistent userId s : reachable userId s -> consistent s.
Proof.
  induction 1 as [code0|env act s Hreach IH]; [|by apply consistent_step].
  split; [|split]; cbn; try done. split_and!; cbn.
  - constructor.
  - intros t. rewrite lookup_empty. split; [by intros ?%elem_of_nil|by intros [? ?]].
  - intros t r. by rewrite lookup_empty.
Qed.

Lemma reachable_declared_reachable userId s :
  reachable_declared userId s -> reachable userId s.
Proof.
  induction 1 as [code0|env act s _ IH _]; [apply reach_initial|by apply reach_step].
Qed.

Lemma declared_asked_then_prompted :
  reachable_declared "u" Scenario.asked_then_prompted.
Proof.
  assert (Hreply : forall tid req,
            declared_reply (reply (Scenario.env (Scenario.enqueued tid) 0) req)).
  { intros tid req. cbn. by eexists. }
  apply declared_next; [|cbn; by eexists].
  apply declared_next; [|done].
  apply declared_next.
  2:{ split; [by apply declared_shape_plain|right; by apply plain_not_upserting]. }
  apply declared_next.
  2:{ split; [apply declared_shape_started|right; apply started_not_upserting]. }
  apply declared_next; [|cbn; by eexists].
  apply declared_next; [|done].
  apply declared_initial.
Qed.

(** X20.  In every session reached from a fresh one by typing, the four
    buttons, server events of the declared shape within the store's
    contract and enqueue replies that name their task by a string, each
    handled to its end before the next: [runOrder] lists every run of the
    registry exactly once and nothing else, each run is filed under its own
    task identifier and holds at least one action, and the active task,
    when there is one, is a known run and the session is loading. *)
Theorem reachable_sessions_are_consistent userId s :
  reachable_declared userId s ->
  NoDup (runOrder (registry s)) /\
  (forall t, t ∈ runOrder (registry s) <-> is_Some (runs (registry s) !! t)) /\
  (forall t r, runs (registry s) !! t = Some r -> taskId r = t /\ actions r <> []) /\
  (forall t, currentTaskId s = Some t ->
     is_Some (runs (registry s) !! t) /\ loading s = true).
Proof.
  intros Hreach%reachable_declared_reachable.
  destruct (reachable_consistent userId s Hreach) as ((Hnd & Hdom & Hid) & Hne & Hact).
  split; [done|]. split; [done|]. split; [|done].
  intros t r Hr. split; [by apply Hid|by eapply Hne].
Qed.

Lemma reachable_sessions_are_consistent_witness :
  reachable_declared "u" Scenario.asked_then_prompted /\
  NoDup (runOrder (registry Scenario.asked_then_prompted)) /\
  (is_Some (runs (registry Scenario.asked_then_prompted) !! "t2") /\
   loading Scenario.asked_then_prompted = true).
Proof.
  pose proof declared_asked_then_prompted as Hreach.
  destruct (reachable_sessions_are_consistent "u" Scenario.asked_then_prompted Hreach)
    as (Hnd & _ & _ & Hact).
  split; [exact Hreach|]. split; [exact Hnd|]. exact (Hact "t2" eq_refl).
Defined.

(** X21.  In every such session the placeholder of the timeline is shown
    exactly when there is no run, so testing the first run alone is enough;
    every action of every run is on the timeline; and whenever a non-empty
    task is active the cancel button is rendered. *)
Theorem reachable_sessions_show_their_runs userId s :
  reachable_declared userId s ->
  (timelinePlaceholder (registry s) = true <-> runOrder (registry s) = []) /\
  (forall t r a, runs (registry s) !! t = Some r -> a ∈ actions r ->
     a ∈ timelineActions (registry s)) /\
  (forall t, currentTaskId s = Some t -> t <> "" -> cancelShown s = true).
Proof.
  intros Hreach%reachable_declared_reachable.
  destruct (reachable_consistent userId s Hreach) as ((Hnd & Hdom & Hid) & Hne & Hact).
  split; [|split].
  - unfold timelinePlaceholder. destruct (runOrder (registry s)) as [|t l] eqn:Ho; cbn.
    + assert (Hnone : runs (registry s) !! "undefined" = None).
      { destruct (runs (registry s) !! "undefined") eqn:Hu; [|done].
        assert (Hin : "undefined" ∈ ([] : list string)) by (apply Hdom; by eexists).
        by apply elem_of_nil in Hin. }
      by rewrite Hnone.
    + assert (Hk : is_Some (runs (registry s) !! t)) by (apply Hdom; by left).
      destruct Hk as [r Hr]. rewrite Hr. split; [|done].
      intros Hlen%bool_decide_eq_true. specialize (Hne t r Hr).
      by destruct (actions r).
  - intros t r a Hr Ha. apply elem_of_timeline. exists t. split.
    + apply Hdom. by eexists.
    + unfold actions_of. by rewrite Hr.
  - intros t Ht Hnt. destruct (Hact t Ht) as [_ Hload].
    unfold cancelShown. rewrite Hload, Ht. cbn. apply String.eqb_neq in Hnt.
    by rewrite Hnt.
Qed.

Lemma reachable_sessions_show_their_runs_witness :
  reachable_declared "u" Scenario.asked_then_prompted /\
  timelinePlaceholder (registry Scenario.asked_then_prompted) = false /\
  cancelShown Scenario.asked_then_prompted = true.
Proof.
  pose proof declared_asked_then_prompted as Hreach.
  destruct (reachable_sessions_show_their_runs "u" Scenario.asked_then_prompted Hreach)
    as (_ & _ & Hcancel).
  split; [exact Hreach|]. split; [reflexivity|].
  exact (Hcancel "t2" eq_refl ltac:(discriminate)).
Defined.

(** ** A started event and its completed event, in both orders *)

Lemma find_index_snoc aid (l : list Action) a :
  Forall (fun b => id b <> aid) l -> id a = aid ->
  find_index aid (l ++ [a]) = Some (length l).
Proof.
  intros Hl Ha. induction Hl as [|x l Hx Hl IH]; simpl.
  - by rewrite decide_True.
  - rewrite decide_False; [|done]. by rewrite IH.
Qed.

Lemma actions_of_thoughts tid reg r (extra : list Action) :
  runs reg !! tid = Some r ->
  actions_of (foldl (fun reg a => addAction tid a reg) reg extra) tid =
    actions r ++ extra.
Proof.
  revert reg r. induction extra as [|x extra IH]; intros reg r Hr; simpl.
  - unfold actions_of. by rewrite Hr, app_nil_r.
  - rewrite (IH _ (with_actions r (actions r ++ [x]))).
    + cbn [actions with_actions]. by rewrite <- app_assoc.
    + unfold addAction. rewrite Hr. cbn. by rewrite lookup_insert_eq.
Qed.

(** What a completed event for a known run leaves in that run. *)
Lemma completed_actions env event tcj tc s r :
  Ev.event_type event = "progress_update_tool_action_completed" ->
  completed_tool_call event = Some tcj ->
  read_tool_call tcj = Some tc ->
  ToolCall.name tc <> EXEC_TOOL ->
  runs (registry s) !! Ev.task_id event = Some r ->
  actions_of (registry (final (run env (handleWSMessage event) s))) (Ev.task_id event) =
    upsert (Some (ToolCall.id tc)) (completedUpdater event tc (completed_output event))
      (actions r) ++ thoughts_of event tc (now env).
Proof.
  intros Htype Hdesc Hread Hname Hr.
  destruct (completed_registry env event tcj tc s Htype Hdesc Hread Hname) as [_ Hreg].
  rewrite Hreg.
  by rewrite (actions_of_thoughts _ _ _ _ (runs_updateAction _ _ _ _ _ Hr)).
Qed.

(** X22.  A started event followed by the completed event of the same
    tool call (a tool other than the execution request, an identifier new
    to the run) leaves one action for the call: kind [tool_completed],
    status done, the output as result, and the tool name, the arguments
    and the timestamp of the started event.  After it comes the thought, if
    the completed event adds one. *)
Theorem started_then_completed_is_one_action
    env1 env2 ev1 ev2 tcj1 tcj2 tc1 tc2 s r :
  Ev.event_type ev1 = "progress_update_tool_action_started" ->
  announced_tool_call ev1 = Some tcj1 -> read_tool_call tcj1 = Some tc1 ->
  Ev.event_type ev2 = "progress_update_tool_action_completed" ->
  completed_tool_call ev2 = Some tcj2 -> read_tool_call tcj2 = Some tc2 ->
  Ev.task_id ev2 = Ev.task_id ev1 -> ToolCall.id tc2 = ToolCall.id tc1 ->
  ToolCall.name tc1 <> EXEC_TOOL -> ToolCall.name tc2 <> EXEC_TOOL ->
  runs (registry s) !! Ev.task_id ev1 = Some r ->
  Forall (fun a => id a <> Some (ToolCall.id tc1)) (actions r) ->
  let s1 := final (run env1 (handleWSMessage ev1) s) in
  let s2 := final (run env2 (handleWSMessage ev2) s1) in
  exists c,
    actions_of (registry s2) (Ev.task_id ev1) =
      actions r ++ [c] ++ thoughts_of ev2 tc2 (now env2) /\
    id c = Some (ToolCall.id tc1) /\ kind c = Some tool_completed /\ status c = done /\
    result c = completed_output ev2 /\ toolName c = Some (ToolCall.name tc1) /\
    arguments c = ToolCall.arguments tc1 /\ timestamp c = Some (Ev.timestamp ev1).
Proof.
  intros Ht1 Hd1 Hr1 Ht2 Hd2 Hr2 Htid Hid Hn1 Hn2 Hr Hnew s1 s2.
  assert (Hs1 : s1 = setRuns (addAction (Ev.task_id ev1) (startAction ev1 tc1)) s)
    by by apply (started_final env1 ev1 tcj1 tc1 s).
  assert (Hrun1 : runs (registry s1) !! Ev.task_id ev2 =
            Some (with_actions r (actions r ++ [startAction ev1 tc1]))).
  { rewrite Hs1, Htid. cbn. unfold addAction. rewrite Hr. cbn. by rewrite lookup_insert_eq. }
  assert (Hida : id (startAction ev1 tc1) = Some (ToolCall.id tc1)).
  { unfold startAction. by destruct (String.eqb _ _). }
  pose proof (completed_actions env2 ev2 tcj2 tc2 s1 _ Ht2 Hd2 Hr2 Hn2 Hrun1) as Hacts.
  fold s2 in Hacts. rewrite Htid, Hid in Hacts. cbn [actions with_actions] in Hacts.
  pose proof (find_index_snoc _ _ _ Hnew Hida) as Hfi.
  destruct (upsert_present (Some (ToolCall.id tc1))
              (completedUpdater ev2 tc2 (completed_output ev2)) _ _ Hfi) as [Hup _].
  rewrite Hup in Hacts.
  rewrite lookup_app_r, Nat.sub_diag in Hacts; [|done]. cbn [lookup list_lookup] in Hacts.
  rewrite insert_app_r_alt, Nat.sub_diag in Hacts; [|done].
  cbn [insert list_insert] in Hacts.
  eexists. split; [by rewrite Hacts, <- app_assoc|].
  apply String.eqb_neq in Hn1. unfold startAction. rewrite Hn1. by cbn.
Qed.

Lemma started_then_completed_is_one_action_witness :
  let ev1 := Scenario.started "t1" "c7" "read_file" (JObj [("path", JStr "a.js")]) in
  let ev2 := Scenario.completed "t1" "c7" "read_file" (JStr "text") in
  let s1 := final (run (Scenario.env NetworkError 1000) (handleWSMessage ev1) Scenario.prompted) in
  let s2 := final (run (Scenario.env NetworkError 1001) (handleWSMessage ev2) s1) in
  exists c,
    actions_of (registry s2) "t1" = actions_of (registry Scenario.prompted) "t1" ++ [c] /\
    kind c = Some tool_completed /\ arguments c = Some (JObj [("path", JStr "a.js")]) /\
    timestamp c = Some (Ev.timestamp ev1).
Proof.
  destruct (started_then_completed_is_one_action
              (Scenario.env NetworkError 1000) (Scenario.env NetworkError 1001)
              (Scenario.started "t1" "c7" "read_file" (JObj [("path", JStr "a.js")]))
              (Scenario.completed "t1" "c7" "read_file" (JStr "text"))
              (Scenario.descriptor "c7" "read_file" (JObj [("path", JStr "a.js")]))
              (Scenario.descriptor "c7" "read_file" (JObj []))
              (ToolCall.mk "c7" "read_file" (Some (JObj [("path", JStr "a.js")])))
              (ToolCall.mk "c7" "read_file" (Some (JObj [])))
              Scenario.prompted
              (mkRun "t1" "sort this array" (actions_of (registry Scenario.prompted) "t1"))
              eq_refl eq_refl eq_refl eq_refl eq_refl eq_refl eq_refl eq_refl
              ltac:(discriminate) ltac:(discriminate) eq_refl
              ltac:(repeat constructor; discriminate))
    as (c & Hacts & _ & Hkind & _ & _ & _ & Hargs & Hts).
  exists c. split; [exact Hacts|]. split; [exact Hkind|]. split; [exact Hargs|exact Hts].
Defined.

(** X23.  In the other order the pair is not reconciled: a started event
    handled after the completed event of its tool call appends a second
    action with the same identifier, which is running, so the identifiers
    of the run are no longer pairwise distinct. *)
Theorem completed_then_started_is_two_actions
    env1 env2 ev1 ev2 tcj1 tcj2 tc1 tc2 s r :
  Ev.event_type ev1 = "progress_update_tool_action_started" ->
  announced_tool_call ev1 = Some tcj1 -> read_tool_call tcj1 = Some tc1 ->
  Ev.event_type ev2 = "progress_update_tool_action_completed" ->
  completed_tool_call ev2 = Some tcj2 -> read_tool_call tcj2 = Some tc2 ->
  Ev.task_id ev2 = Ev.task_id ev1 -> ToolCall.id tc2 = ToolCall.id tc1 ->
  ToolCall.name tc2 <> EXEC_TOOL ->
  runs (registry s) !! Ev.task_id ev1 = Some r ->
  Forall (fun a => id a <> Some (ToolCall.id tc1)) (actions r) ->
  let s1 := final (run env2 (handleWSMessage ev2) s) in
  let s2 := final (run env1 (handleWSMessage ev1) s1) in
  exists c,
    actions_of (registry s2) (Ev.task_id ev1) =
      actions r ++ [c] ++ thoughts_of ev2 tc2 (now env2) ++ [startAction ev1 tc1] /\
    (id c = Some (ToolCall.id tc1) /\ kind c = Some tool_completed /\ status c = done) /\
    (id (startAction ev1 tc1) = Some (ToolCall.id tc1) /\
     status (startAction ev1 tc1) = running) /\
    ~ NoDup (ids_of (registry s2) (Ev.task_id ev1)).
Proof.
  intros Ht1 Hd1 Hr1 Ht2 Hd2 Hr2 Htid Hid Hn2 Hr Hnew s1 s2.
  rewrite <- Htid in Hr. rewrite <- Hid in Hnew.
  pose proof (completed_actions env2 ev2 tcj2 tc2 s r Ht2 Hd2 Hr2 Hn2 Hr) as Hacts1.
  fold s1 in Hacts1. rewrite (upsert_absent _ _ _ Hnew) in Hacts1.
  assert (Hk : is_Some (runs (registry s1) !! Ev.task_id ev1)).
  { pose proof (handleWSMessage_frame env2 ev2 s) as (_ & _ & _ & _ & Hgrow).
    rewrite <- Htid. eapply known_run_grows; [exact Hgrow|]. by eexists. }
  destruct Hk as [r1 Hr1'].
  assert (Hr1a : actions r1 = actions_of (registry s1) (Ev.task_id ev2)).
  { unfold actions_of. by rewrite Htid, Hr1'. }
  assert (Hs2 : s2 = setRuns (addAction (Ev.task_id ev1) (startAction ev1 tc1)) s1)
    by by apply (started_final env1 ev1 tcj1 tc1 s1).
  assert (Hacts2 : actions_of (registry s2) (Ev.task_id ev1) =
            actions r ++ [completedUpdater ev2 tc2 (completed_output ev2) None] ++
            thoughts_of ev2 tc2 (now env2) ++ [startAction ev1 tc1]).
  { rewrite Hs2. cbn [registry setRuns].
    rewrite (actions_of_addAction _ _ _ _ Hr1'), Hr1a, Hacts1.
    by rewrite <- !app_assoc. }
  assert (Hida : id (startAction ev1 tc1) = Some (ToolCall.id tc1)).
  { unfold startAction. by destruct (String.eqb _ _). }
  eexists. split; [exact Hacts2|]. split; [by rewrite <- Hid|].
  split; [split; [done|unfold startAction; by destruct (String.eqb _ _)]|].
  unfold ids_of. rewrite Hacts2, !fmap_app. cbn [fmap list_fmap].
  rewrite Hida, <- Hid. intros Hnd.
  apply NoDup_app in Hnd as (_ & _ & Hnd). apply NoDup_cons in Hnd as [Hnin _].
  apply Hnin. apply elem_of_app. right. by left.
Qed.

Lemma completed_then_started_is_two_actions_witness :
  let ev1 := Scenario.started "t1" "c7" "read_file" (JObj []) in
  let ev2 := Scenario.completed "t1" "c7" "read_file" (JStr "text") in
  let s1 := final (run (Scenario.env NetworkError 1000) (handleWSMessage ev2) Scenario.prompted) in
  let s2 := final (run (Scenario.env NetworkError 1001) (handleWSMessage ev1) s1) in
  NoDup (ids_of (registry Scenario.prompted) "t1") /\
  ~ NoDup (ids_of (registry s2) "t1").
Proof.
  split.
  - apply (bool_decide_unpack _). vm_compute. exact I.
  - destruct (completed_then_started_is_two_actions
              (Scenario.env NetworkError 1001) (Scenario.env NetworkError 1000)
              (Scenario.started "t1" "c7" "read_file" (JObj []))
              (Scenario.completed "t1" "c7" "read_file" (JStr "text"))
              (Scenario.descriptor "c7" "read_file" (JObj []))
              (Scenario.descriptor "c7" "read_file" (JObj []))
              (ToolCall.mk "c7" "read_file" (Some (JObj [])))
              (ToolCall.mk "c7" "read_file" (Some (JObj [])))
              Scenario.prompted
              (mkRun "t1" "sort this array" (actions_of (registry Scenario.prompted) "t1"))
              eq_refl eq_refl eq_refl eq_refl eq_refl eq_refl eq_refl eq_refl
              ltac:(discriminate) eq_refl
              ltac:(repeat constructor; discriminate))
      as (c & _ & _ & _ & Hdup).
    exact Hdup.
Defined.
